(** * generate_appcast: a shallow embedding of [scripts/generate_appcast.py]

    The script fetches the releases of a GitHub repository, keeps one
    downloadable asset per release, and prints a Sparkle appcast.  This
    development models the Python values the script manipulates (the parsed
    JSON document), the library calls it makes on them, its two loops and
    [main] with its exits, and proves the properties stated about them.

    Conventions.  A Python [str] is a Rocq [string], the UTF-8 bytes of
    its characters; the methods of [str] used by the script are defined on
    it under their Python names.  What the library does where this
    development does not follow it (lowering a text that is not ASCII,
    reading a timestamp of a shape that not every version of Python reads,
    printing a year below 1000, parsing the command line or the JSON body,
    the file system) is taken from the host the script runs on.  A Python exception is the [Raise]
    case of [result]. *)

From Stdlib Require Import String Ascii List ZArith Lia Bool DecimalString.
Import ListNotations.

Open Scope string_scope.
Open Scope Z_scope.

(** ** Exceptions and the error monad *)

Inductive exn : Type :=
| AttributeError   (* a method looked up on a value that lacks it *)
| TypeError        (* iteration over a value that is not iterable *)
| ValueError       (* [datetime.fromisoformat] on a malformed text *)
| OSError          (* a failing file-system call, a connection reset *)
| HTTPException.   (* [http.client]: a connection closed before the answer,
                      a status line or a URL it cannot make sense of *)

Inductive result (A : Type) : Type :=
| Ok (a : A)
| Raise (e : exn).
Arguments Ok {A} a.
Arguments Raise {A} e.

Definition bind {A B : Type} (m : result A) (k : A -> result B) : result B :=
  match m with
  | Ok a => k a
  | Raise e => Raise e
  end.

Declare Scope py_scope.
Delimit Scope py_scope with py.
Notation "x <- m ;; k" := (bind m (fun x => k))
  (at level 61, m at next level, right associativity) : py_scope.
Open Scope py_scope.

Definition raises {A : Type} (m : result A) : Prop :=
  exists e, m = Raise e.

(** ** Methods of [str] *)

Module PyStr.

Definition dquote : string := String "034" "".
Definition newline : string := String "010" "".

(** [c in chars] for a one-character [c]. *)
Fixpoint mem (c : ascii) (chars : string) : bool :=
  match chars with
  | EmptyString => false
  | String d chars' => Ascii.eqb c d || mem c chars'
  end.

(** [s.startswith(p)] *)
Definition startswith (p s : string) : bool := String.prefix p s.

(** [s.endswith(suffix)]: some tail of [s] is [suffix]. *)
Fixpoint endswith (suffix s : string) : bool :=
  String.eqb s suffix ||
  match s with
  | EmptyString => false
  | String _ s' => endswith suffix s'
  end.

Definition lower_char (c : ascii) : ascii :=
  let n := N_of_ascii c in
  if ((65 <=? n) && (n <=? 90))%N then ascii_of_N (n + 32) else c.

(** [s.lower()] for an ASCII text: the letters A-Z are lowered. *)
Fixpoint lower_ascii (s : string) : string :=
  match s with
  | EmptyString => EmptyString
  | String c s' => String (lower_char c) (lower_ascii s')
  end.

(** [s.isascii()] *)
Fixpoint is_ascii (s : string) : bool :=
  match s with
  | EmptyString => true
  | String c s' => (N_of_ascii c <? 128)%N && is_ascii s'
  end.

(** The interpreter's Unicode tables: what [lower] makes of a text that
    is not ASCII (the Kelvin sign becomes [k], for one). *)
Class Unicode : Type := {
  lower_other : string -> string
}.

(** [s.lower()] *)
Definition lower `{Unicode} (s : string) : string :=
  if is_ascii s then lower_ascii s else lower_other s.

(** [s.lstrip(chars)]: drops every leading character that occurs in
    [chars], not a prefix equal to [chars]. *)
Fixpoint lstrip (chars s : string) : string :=
  match s with
  | EmptyString => EmptyString
  | String c s' => if mem c chars then lstrip chars s' else s
  end.

(** [s.rstrip(chars)] *)
Fixpoint rstrip (chars s : string) : string :=
  match s with
  | EmptyString => EmptyString
  | String c s' =>
      match rstrip chars s' with
      | EmptyString => if mem c chars then EmptyString else String c EmptyString
      | r => String c r
      end
  end.

(** [s.replace(old, new)] scans left to right and replaces the
    occurrences of [old] that do not overlap.  [skip] counts the
    characters of a matched occurrence still to be dropped. *)
Fixpoint replace_from (old new : string) (skip : nat) (s : string) : string :=
  match s with
  | EmptyString => EmptyString
  | String c s' =>
      match skip with
      | S k => replace_from old new k s'
      | O =>
          if String.prefix old s
          then new ++ replace_from old new (String.length old - 1) s'
          else String c (replace_from old new O s')
      end
  end.

(** With an empty [old], Python puts [new] before every character and at
    the end. *)
Fixpoint intersperse (new s : string) : string :=
  match s with
  | EmptyString => new
  | String c s' => new ++ String c (intersperse new s')
  end.

Definition replace (old new s : string) : string :=
  match old with
  | EmptyString => intersperse new s
  | _ => replace_from old new O s
  end.

(** [str(n)] for an [int] *)
Definition of_int (n : Z) : string := NilZero.string_of_int (Z.to_int n).

(** [sep.join(parts)] *)
Definition join (sep : string) (parts : list string) : string :=
  String.concat sep parts.

End PyStr.

(** ** Parsed JSON documents

    What [json.load] returns: [None], [bool], [int], [str], [list] and
    [dict].  Numbers are the integers (the only number the script reads is
    a byte count).  A [dict] is the list of its members in insertion order,
    with distinct keys. *)

#[warnings="-register-all"]
Inductive json : Type :=
| JNull
| JBool (b : bool)
| JInt (n : Z)
| JStr (s : string)
| JArr (elements : list json)
| JObj (members : list (string * json)).

Module Py.

(** [bool(v)] *)
Definition truthy (v : json) : bool :=
  match v with
  | JNull => false
  | JBool b => b
  | JInt n => negb (n =? 0)
  | JStr s => negb (String.eqb s "")
  | JArr l => match l with [] => false | _ => true end
  | JObj m => match m with [] => false | _ => true end
  end.

(** [a or b] *)
Definition or_ (a b : json) : json := if truthy a then a else b.

Fixpoint lookup (key : string) (m : list (string * json)) : option json :=
  match m with
  | [] => None
  | (k, v) :: m' => if String.eqb k key then Some v else lookup key m'
  end.

(** [d.get(key, default)]; only a [dict] has the method. *)
Definition get (d : json) (key : string) (default : json) : result json :=
  match d with
  | JObj m =>
      match lookup key m with
      | Some v => Ok v
      | None => Ok default
      end
  | _ => Raise AttributeError
  end.

Fixpoint chars (s : string) : list json :=
  match s with
  | EmptyString => []
  | String c s' => JStr (String c EmptyString) :: chars s'
  end.

(** The values a [for] loop takes over [v]: the elements of a list, the
    keys of a dict, the characters of a string. *)
Definition iterate (v : json) : result (list json) :=
  match v with
  | JArr l => Ok l
  | JObj m => Ok (map (fun kv => JStr (fst kv)) m)
  | JStr s => Ok (chars s)
  | _ => Raise TypeError
  end.

(** A method of [str] called on an arbitrary value. *)
Definition as_str (v : json) : result string :=
  match v with
  | JStr s => Ok s
  | _ => Raise AttributeError
  end.

(** [v.lower()] *)
Definition lower `{PyStr.Unicode} (v : json) : result string :=
  s <- as_str v ;; Ok (PyStr.lower s).

(** [v.lstrip(chars)] *)
Definition lstrip (v : json) (chars : string) : result string :=
  s <- as_str v ;; Ok (PyStr.lstrip chars s).

(** [v.replace(old, new)] *)
Definition replace (v : json) (old new : string) : result string :=
  s <- as_str v ;; Ok (PyStr.replace old new s).

End Py.

(** ** [datetime]

    [fromisoformat] is followed on the texts every version of Python that
    has it reads alike: [YYYY-MM-DD], alone or followed by one ASCII
    character and a time [HH], [HH:MM], [HH:MM:SS], [HH:MM:SS.fff] or
    [HH:MM:SS.ffffff], with an optional offset [+HH:MM] or [-HH:MM], all
    fields in range.  It raises ValueError on the texts no version reads:
    those shorter than seven characters and those that start with a
    letter.  On every other text the answer is the host's: versions differ
    on them. *)

Module Datetime.

Record datetime : Type := mk_datetime {
  year : Z; month : Z; day : Z;
  hour : Z; minute : Z; second : Z; microsecond : Z;
  utcoffset : option Z   (* minutes east of UTC; [None] for a naive value *)
}.

(** The host's part of [datetime]: what its [fromisoformat] makes of the
    other texts, and how its [%Y] prints a year below 1000 ([1] with
    glibc, [0001] with other C libraries and in later versions). *)
Class Reader : Type := {
  other_texts : string -> result datetime;
  year_below_1000 : Z -> string
}.

Definition digit (c : ascii) : option Z :=
  let n := N_of_ascii c in
  if ((48 <=? n) && (n <=? 57))%N then Some (Z.of_N n - 48) else None.

Definition num2 (a b : ascii) : option Z :=
  match digit a, digit b with
  | Some x, Some y => Some (10 * x + y)
  | _, _ => None
  end.

Definition num3 (a b c : ascii) : option Z :=
  match digit a, num2 b c with
  | Some x, Some y => Some (100 * x + y)
  | _, _ => None
  end.

Definition num4 (a b c d : ascii) : option Z :=
  match num2 a b, num2 c d with
  | Some x, Some y => Some (100 * x + y)
  | _, _ => None
  end.

Definition is_leap (y : Z) : bool :=
  ((y mod 4 =? 0) && negb (y mod 100 =? 0)) || (y mod 400 =? 0).

Definition days_in_month (y m : Z) : Z :=
  if m =? 2 then (if is_leap y then 29 else 28)
  else if (m =? 4) || (m =? 6) || (m =? 9) || (m =? 11) then 30
  else 31.

Definition valid_date (y m d : Z) : bool :=
  (1 <=? y) && (y <=? 9999) && (1 <=? m) && (m <=? 12) &&
  (1 <=? d) && (d <=? days_in_month y m).

Definition valid_time (h mi s : Z) : bool :=
  (h <=? 23) && (mi <=? 59) && (s <=? 59).

Definition parse_date (s : string) : option (Z * Z * Z * string) :=
  match s with
  | String y1 (String y2 (String y3 (String y4 (String "-"
    (String m1 (String m2 (String "-" (String d1 (String d2 rest))))))))) =>
      match num4 y1 y2 y3 y4, num2 m1 m2, num2 d1 d2 with
      | Some y, Some m, Some d =>
          if valid_date y m d then Some (y, m, d, rest) else None
      | _, _, _ => None
      end
  | _ => None
  end.

(** Two digits at the head of [s]. *)
Definition parse_two (s : string) : option (Z * string) :=
  match s with
  | String a (String b rest) =>
      match num2 a b with
      | Some n => Some (n, rest)
      | None => None
      end
  | _ => None
  end.

(** [:NN] at the head of [s]; 0 and [s] itself when [s] does not start
    with a colon. *)
Definition parse_colon_two (s : string) : option (Z * string) :=
  match s with
  | String ":" rest => parse_two rest
  | _ => Some (0, s)
  end.

(** [.ffffff] or [.fff] at the head of [s], in microseconds. *)
Definition parse_fraction (s : string) : option (Z * string) :=
  match s with
  | String "." (String a (String b (String c (String d (String e (String f rest)))))) =>
      match num3 a b c, num3 d e f with
      | Some x, Some y => Some (1000 * x + y, rest)
      | _, _ =>
          match num3 a b c with
          | Some x => Some (1000 * x, String d (String e (String f rest)))
          | None => None
          end
      end
  | String "." (String a (String b (String c rest))) =>
      match num3 a b c with
      | Some x => Some (1000 * x, rest)
      | None => None
      end
  | String "." _ => None
  | _ => Some (0, s)
  end.

(** The time of day: hours, then minutes, seconds and a fraction as far
    as they are written; a fraction only after seconds. *)
Definition parse_time (s : string) : option (Z * Z * Z * Z * string) :=
  match parse_two s with
  | None => None
  | Some (h, r1) =>
      match r1 with
      | String ":" _ =>
          match parse_colon_two r1 with
          | None => None
          | Some (mi, r2) =>
              match r2 with
              | String ":" _ =>
                  match parse_colon_two r2 with
                  | None => None
                  | Some (sec, r3) =>
                      match parse_fraction r3 with
                      | None => None
                      | Some (us, r4) =>
                          if valid_time h mi sec then Some (h, mi, sec, us, r4)
                          else None
                      end
                  end
              | _ => if valid_time h mi 0 then Some (h, mi, 0, 0, r2) else None
              end
          end
      | _ => if valid_time h 0 0 then Some (h, 0, 0, 0, r1) else None
      end
  end.

Definition parse_offset (s : string) : option (option Z) :=
  match s with
  | EmptyString => Some None
  | String sg (String h1 (String h2 (String ":" (String m1 (String m2
    EmptyString))))) =>
      match num2 h1 h2, num2 m1 m2 with
      | Some h, Some mi =>
          if (h <=? 23) && (mi <=? 59) then
            if Ascii.eqb sg "+" then Some (Some (60 * h + mi))
            else if Ascii.eqb sg "-" then Some (Some (- (60 * h + mi)))
            else None
          else None
      | _, _ => None
      end
  | _ => None
  end.

(** The texts every version reads, with what they read there. *)
Definition common (s : string) : option datetime :=
  match parse_date s with
  | None => None
  | Some (y, m, d, rest) =>
      match rest with
      | EmptyString => Some (mk_datetime y m d 0 0 0 0 None)
      | String sep rest' =>
          if (N_of_ascii sep <? 128)%N then
            match parse_time rest' with
            | None => None
            | Some (h, mi, sec, us, tz) =>
                match parse_offset tz with
                | None => None
                | Some off => Some (mk_datetime y m d h mi sec us off)
                end
            end
          else None
      end
  end.

Definition is_letter (c : ascii) : bool :=
  let n := N_of_ascii c in
  ((65 <=? n) && (n <=? 90) || (97 <=? n) && (n <=? 122))%N.

(** The texts no version reads. *)
Definition hopeless (s : string) : bool :=
  (String.length s <? 7)%nat ||
  match s with
  | String c _ => is_letter c
  | EmptyString => true
  end.

(** [datetime.fromisoformat(s)] *)
Definition fromisoformat `{Reader} (s : string) : result datetime :=
  match common s with
  | Some dt => Ok dt
  | None => if hopeless s then Raise ValueError else other_texts s
  end.

Definition days_before_year (y : Z) : Z :=
  (y - 1) * 365 + (y - 1) / 4 - (y - 1) / 100 + (y - 1) / 400.

Fixpoint days_before_month_from (y : Z) (m : nat) : Z :=
  match m with
  | O => 0
  | S k => days_before_month_from y k + days_in_month y (Z.of_nat (S k))
  end.

Definition days_before_month (y m : Z) : Z :=
  days_before_month_from y (Z.to_nat (m - 1)).

(** [toordinal()]: 1 is January 1 of year 1. *)
Definition toordinal (dt : datetime) : Z :=
  days_before_year (year dt) + days_before_month (year dt) (month dt) + day dt.

(** [weekday()]: 0 is Monday. *)
Definition weekday (dt : datetime) : Z := (toordinal dt + 6) mod 7.

Definition day_names : list string :=
  ["Mon"; "Tue"; "Wed"; "Thu"; "Fri"; "Sat"; "Sun"].

Definition month_names : list string :=
  ["Jan"; "Feb"; "Mar"; "Apr"; "May"; "Jun";
   "Jul"; "Aug"; "Sep"; "Oct"; "Nov"; "Dec"].

Definition pad2 (n : Z) : string :=
  if n <? 10 then "0" ++ PyStr.of_int n else PyStr.of_int n.

(** [%z]: empty for a naive value, else sign, hours and minutes. *)
Definition format_offset (off : option Z) : string :=
  match off with
  | None => ""
  | Some o =>
      (if o <? 0 then "-" else "+") ++
      pad2 (Z.abs o / 60) ++ pad2 (Z.abs o mod 60)
  end.

(** [%Y] *)
Definition format_year `{Reader} (y : Z) : string :=
  if y <? 1000 then year_below_1000 y else PyStr.of_int y.

(** [dt.strftime('%a, %d %b %Y %H:%M:%S %z')] in the C locale, which is
    the one of a script that does not call [setlocale]. *)
Definition strftime `{Reader} (dt : datetime) : string :=
  nth (Z.to_nat (weekday dt)) day_names "" ++ ", " ++
  pad2 (day dt) ++ " " ++
  nth (Z.to_nat (month dt - 1)) month_names "" ++ " " ++
  format_year (year dt) ++ " " ++
  pad2 (hour dt) ++ ":" ++ pad2 (minute dt) ++ ":" ++ pad2 (second dt) ++
  " " ++ format_offset (utcoffset dt).

End Datetime.

(** ** The script *)

(** [iso_to_rfc2822(iso)] *)
Definition iso_to_rfc2822 `{Datetime.Reader} (iso : json) : result string :=
  text <- Py.replace iso "Z" "+00:00" ;;
  dt <- Datetime.fromisoformat text ;;
  Ok (Datetime.strftime dt).

(** [xml.sax.saxutils]: [escape] with no extra entities, and [unescape],
    the inverse a reader of the feed applies. *)
Module Sax.

Definition escape_text (data : string) : string :=
  let data := PyStr.replace "&" "&amp;" data in
  let data := PyStr.replace ">" "&gt;" data in
  let data := PyStr.replace "<" "&lt;" data in
  data.

(** [sax.escape(data)]: the first thing it does is [data.replace]. *)
Definition escape (data : json) : result string :=
  s <- Py.as_str data ;; Ok (escape_text s).

Definition unescape_text (data : string) : string :=
  let data := PyStr.replace "&lt;" "<" data in
  let data := PyStr.replace "&gt;" ">" data in
  PyStr.replace "&amp;" "&" data.

End Sax.

(** [os.path.dirname] on POSIX paths. *)
Module Path.

Fixpoint has_sep (p : string) : bool :=
  match p with
  | EmptyString => false
  | String c p' => Ascii.eqb c "/" || has_sep p'
  end.

(** [p[:p.rfind('/') + 1]] *)
Fixpoint head (p : string) : string :=
  match p with
  | EmptyString => EmptyString
  | String c p' =>
      if has_sep p' then String c (head p')
      else if Ascii.eqb c "/" then "/" else EmptyString
  end.

Definition dirname (p : string) : string :=
  let h := head p in
  match PyStr.rstrip "/" h with
  | EmptyString => h        (* empty, or nothing but separators *)
  | stripped => stripped
  end.

End Path.

(** The host the script runs on: its Unicode tables and its reading of
    timestamps, and the library calls whose results the script only passes
    on: [str] of a list or dict, the JSON parser, and the file system. *)
Class Host : Type := {
  unicode :: PyStr.Unicode;
  reader :: Datetime.Reader;
  repr : json -> string;
  json_load : string -> string + json;   (* [inl]: the JSONDecodeError *)
  FS : Type;
  path_exists : FS -> string -> bool;
  makedirs : FS -> string -> FS * option exn;
  write_text : FS -> string -> string -> FS * option exn
}.

(** [str(v)] *)
Definition str `{Host} (v : json) : string :=
  match v with
  | JNull => "None"
  | JBool true => "True"
  | JBool false => "False"
  | JInt n => PyStr.of_int n
  | JStr s => s
  | JArr _ | JObj _ => repr v
  end.

(** The dict appended to [items]. *)
Module Item.
Record t : Type := make {
  title : json;
  notes : json;
  pubDate : string;
  url : json;
  length : string;
  version : string
}.
End Item.

Definition ext_priority : list (string * Z) :=
  [(".zip", 0); (".dmg", 1); (".pkg", 2)].

(** The inner loop: the priority of the first extension of the table, in
    its order, that ends [name]; the [break] stops at it. *)
Fixpoint first_match (name : string) (table : list (string * Z)) : option Z :=
  match table with
  | [] => None
  | (ext, prio) :: table' =>
      if PyStr.endswith ext name then Some prio else first_match name table'
  end.

(** [preferred] and [preferred_prio]: both [None], or both set. *)
Definition choice : Type := option (json * Z).

(** The lowered name of an asset: [(a.get('name') or '').lower()]. *)
Definition asset_name `{Host} (a : json) : result string :=
  raw <- Py.get a "name" JNull ;;
  Py.lower (Py.or_ raw (JStr "")).

(** One turn of the loop over the assets. *)
Definition consider `{Host} (best : choice) (a : json) : result choice :=
  name <- asset_name a ;;
  match first_match name ext_priority with
  | None => Ok best
  | Some prio =>
      match best with
      | None => Ok (Some (a, prio))
      | Some (_, preferred_prio) =>
          if prio <? preferred_prio then Ok (Some (a, prio)) else Ok best
      end
  end.

Fixpoint select_from `{Host} (best : choice) (assets : list json) : result choice :=
  match assets with
  | [] => Ok best
  | a :: rest => best' <- consider best a ;; select_from best' rest
  end.

(** The loop [for a in assets] from [preferred = None]. *)
Definition select_asset `{Host} (assets : json) : result choice :=
  l <- Py.iterate assets ;; select_from None l.

(** [tag.lstrip('v') if tag else ''] *)
Definition version_of (tag : json) : result string :=
  if Py.truthy tag then Py.lstrip tag "v" else Ok "".

(** [iso_to_rfc2822(pub) if pub else ''] *)
Definition pub_date `{Host} (pub : json) : result string :=
  if Py.truthy pub then iso_to_rfc2822 pub else Ok "".

(** [rel.get('published_at') or rel.get('created_at')] *)
Definition published (rel : json) : result json :=
  p <- Py.get rel "published_at" JNull ;;
  if Py.truthy p then Ok p else Py.get rel "created_at" JNull.

(** The body of the loop over the releases: [None] when it [continue]s,
    the appended item otherwise. *)
Definition feed_item `{Host} (rel : json) : result (option Item.t) :=
  tag <- Py.get rel "tag_name" JNull ;;
  name <- Py.get rel "name" JNull ;;
  let title := Py.or_ name tag in
  notes_url <- Py.get rel "html_url" JNull ;;
  pub <- published rel ;;
  assets <- Py.get rel "assets" (JArr []) ;;
  best <- select_asset assets ;;
  match best with
  | None => Ok None
  | Some (preferred, _) =>
      if negb (Py.truthy preferred) then Ok None
      else
        download_url <- Py.get preferred "browser_download_url" JNull ;;
        size <- Py.get preferred "size" (JInt 0) ;;
        version <- version_of tag ;;
        date <- pub_date pub ;;
        Ok (Some (Item.make title notes_url date download_url (str size) version))
  end.

Fixpoint collect `{Host} (rels : list json) : result (list Item.t) :=
  match rels with
  | [] => Ok []
  | rel :: rest =>
      it <- feed_item rel ;;
      its <- collect rest ;;
      Ok (match it with Some i => i :: its | None => its end)
  end.

(** The loop [for rel in releases]. *)
Definition build_items `{Host} (releases : json) : result (list Item.t) :=
  rels <- Py.iterate releases ;; collect rels.

(** [name="value"] *)
Definition attr (name value : string) : string :=
  name ++ "=" ++ PyStr.dquote ++ value ++ PyStr.dquote.

Definition enclosure (u v l : string) : string :=
  "<enclosure " ++ attr "url" u ++ " " ++ attr "sparkle:version" v ++ " " ++
  attr "sparkle:shortVersionString" v ++ " " ++ attr "length" l ++ " " ++
  attr "type" "application/octet-stream" ++ " />".

(** The six lines appended for one item. *)
Definition item_lines (it : Item.t) : result (list string) :=
  t <- Sax.escape (Item.title it) ;;
  n <- Sax.escape (Item.notes it) ;;
  d <- Sax.escape (JStr (Item.pubDate it)) ;;
  u <- Sax.escape (Item.url it) ;;
  v <- Sax.escape (JStr (Item.version it)) ;;
  l <- Sax.escape (JStr (Item.length it)) ;;
  Ok [ "<item>";
       "<title>" ++ t ++ "</title>";
       "<sparkle:releaseNotesLink>" ++ n ++ "</sparkle:releaseNotesLink>";
       "<pubDate>" ++ d ++ "</pubDate>";
       enclosure u v l;
       "</item>" ].

Fixpoint items_lines (items : list Item.t) : result (list string) :=
  match items with
  | [] => Ok []
  | it :: rest =>
      ls <- item_lines it ;;
      more <- items_lines rest ;;
      Ok (ls ++ more)%list
  end.

Definition warning_comment : string :=
  "<!-- WARNING: This generated appcast does NOT include Sparkle signatures." ++
  PyStr.newline ++
  "                 Do NOT use unsigned updates in production." ++
  PyStr.newline ++
  "                 Sign your update archives with EdDSA (Ed25519) and include sparkle:edSignature attributes in the enclosure elements. -->".

Definition preamble (repo : string) : list string :=
  let repo_url := "https://github.com/" ++ repo in
  [ "<?xml " ++ attr "version" "1.0" ++ " " ++ attr "encoding" "utf-8" ++ "?>";
    "<rss " ++ attr "version" "2.0" ++ " " ++
      attr "xmlns:sparkle" "http://www.andymatuschak.org/xml-namespaces/sparkle" ++
      " " ++ attr "xmlns:dc" "http://purl.org/dc/elements/1.1/" ++ ">";
    "<channel>";
    "<title>" ++ Sax.escape_text repo ++ " updates</title>";
    "<link>" ++ Sax.escape_text repo_url ++ "</link>";
    "<description>App updates generated from GitHub Releases</description>";
    warning_comment ].

(** The text written to the output: [xml] joined by newlines. *)
Definition document (repo : string) (items : list Item.t) : result string :=
  body <- items_lines items ;;
  Ok (PyStr.join PyStr.newline
        (preamble repo ++ body ++ ["</channel>"; "</rss>"])%list).

(** From the parsed response to the text of the feed. *)
Definition appcast `{Host} (repo : string) (releases : json) : result string :=
  items <- build_items releases ;; document repo items.

(** *** [main]

    [main] is the function from its line 31 on, once [parse_args] has
    returned a namespace: [output] is [args.output].  [run_main], below,
    is the whole of it, [parse_args] included. *)

Record request : Type := {
  req_url : string;
  req_headers : list (string * string)
}.

(** What the body of the [try], [urlopen] and the reading of what it
    opened, does with a request: raise HTTPError, raise URLError, raise an
    exception that no [except] clause names (a connection closed before
    the answer, a URL refused, a read cut short, bytes that are not
    UTF-8), or hand over the text of a body.  JSONDecodeError is the
    parser's: see [json_load]. *)
Inductive response : Type :=
| HTTPError (e : string)
| URLError (e : string)
| Raised (e : exn)
| Body (text : string).

Record world : Type := {
  output : string;
  environ : string -> option string;
  urlopen : request -> response
}.

Inductive event : Type :=
| Stderr (line : string)
| Stdout (line : string)
| Fetch (req : request)
| Makedirs (path : string)
| Write (path : string).

Inductive status : Type :=
| Completed
| SystemExit (code : Z)
| Uncaught (e : exn).

Definition exit_code (s : status) : Z :=
  match s with
  | Completed => 0
  | SystemExit code => code
  | Uncaught _ => 1
  end.

Record run `{Host} : Type := {
  final : status;
  trace : list event;
  disk : FS
}.

(** A value of [os.environ.get] that passes [if v:]. *)
Definition nonempty (v : option string) : option string :=
  match v with
  | Some s => if String.eqb s "" then None else Some s
  | None => None
  end.

(** The tail of [main], from [os.path.dirname] on. *)
Definition write_output `{Host} (w : world) (before : list event)
    (xml : string) (fs : FS) : run :=
  let outdir := Path.dirname (output w) in
  let '(fs1, err1, ev1) :=
    if negb (String.eqb outdir "") && negb (path_exists fs outdir)
    then (makedirs fs outdir, [Makedirs outdir])
    else ((fs, None), []) in
  match err1 with
  | Some e => {| final := Uncaught e; trace := (before ++ ev1)%list; disk := fs1 |}
  | None =>
      let '(fs2, err2) := write_text fs1 (output w) xml in
      match err2 with
      | Some e =>
          {| final := Uncaught e;
             trace := (before ++ ev1 ++ [Write (output w)])%list; disk := fs2 |}
      | None =>
          {| final := Completed;
             trace := (before ++ ev1 ++
                       [Write (output w); Stdout ("Wrote " ++ output w)])%list;
             disk := fs2 |}
      end
  end.

(** The request [main] builds: [req], with [headers] and [api]. *)
Definition releases_request (repo : string) (token : option string) : request :=
  let headers :=
    ("Accept", "application/vnd.github+json") ::
    match nonempty token with
    | Some t => [("Authorization", "token " ++ t)]
    | None => []
    end in
  let api := "https://api.github.com/repos/" ++ repo ++ "/releases" in
  {| req_url := api; req_headers := headers |}.
(** [main()] from [repo = os.environ.get(...)] on. *)
Definition main `{Host} (w : world) (fs : FS) : run :=
  let token := environ w "GITHUB_TOKEN" in
  match nonempty (environ w "GITHUB_REPOSITORY") with
  | None =>
      {| final := SystemExit 2;
         trace := [Stderr "GITHUB_REPOSITORY not set"]; disk := fs |}
  | Some repo =>
      let req := releases_request repo token in
      match urlopen w req with
      | HTTPError e =>
          {| final := SystemExit 3;
             trace := [Fetch req; Stderr ("Failed to fetch releases (HTTP): " ++ e)];
             disk := fs |}
      | URLError e =>
          {| final := SystemExit 3;
             trace := [Fetch req; Stderr ("Failed to fetch releases (network): " ++ e)];
             disk := fs |}
      | Raised e =>
          {| final := Uncaught e; trace := [Fetch req]; disk := fs |}
      | Body text =>
          match json_load text with
          | inl e =>
              {| final := SystemExit 4;
                 trace := [Fetch req;
                           Stderr ("Failed to parse GitHub API response as JSON: " ++ e)];
                 disk := fs |}
          | inr releases =>
              match appcast repo releases with
              | Raise e =>
                  {| final := Uncaught e; trace := [Fetch req]; disk := fs |}
              | Ok xml => write_output w [Fetch req] xml fs
              end
          end
      end
  end.

(** What [parser.parse_args()] does with the command line: return the
    namespace with its [output], print the help and exit with 0, or print
    a usage error and exit with 2. *)
Inductive parsed : Type :=
| Namespace (path : string)
| Help (text : string)
| UsageError (text : string).

Definition with_output (w : world) (path : string) : world :=
  {| output := path; environ := environ w; urlopen := urlopen w |}.

(** [main()] from its first line. *)
Definition run_main `{Host} (args : parsed) (w : world) (fs : FS) : run :=
  match args with
  | Help text =>
      {| final := SystemExit 0; trace := [Stdout text]; disk := fs |}
  | UsageError text =>
      {| final := SystemExit 2; trace := [Stderr text]; disk := fs |}
  | Namespace path => main (with_output w path) fs
  end.

(** ** A host to run the script on

    Its parser reads every body as the document [doc]; its disk is the
    list of directories made and the list of files written. *)

Module Demo.

Record disk_state : Type := {
  dirs : list string;
  files : list (string * string)
}.

Definition empty_disk : disk_state := {| dirs := []; files := [] |}.

Definition exists_on (d : disk_state) (p : string) : bool :=
  existsb (String.eqb p) (dirs d) ||
  existsb (fun f => String.eqb p (fst f)) (files d).

(** Tables that leave every other text as it is, and a reader that reads
    no other text. *)
#[local] Instance plain_unicode : PyStr.Unicode := {|
  PyStr.lower_other := fun s => s
|}.

#[local] Instance strict_reader : Datetime.Reader := {|
  Datetime.other_texts := fun _ => Raise ValueError;
  Datetime.year_below_1000 := PyStr.of_int
|}.

#[local] Instance host (doc : json) : Host := {|
  unicode := plain_unicode;
  reader := strict_reader;
  repr := fun _ => "[...]";
  json_load := fun _ => inr doc;
  FS := disk_state;
  path_exists := exists_on;
  makedirs := fun d p => ({| dirs := p :: dirs d; files := files d |}, None);
  write_text := fun d p text =>
    ({| dirs := dirs d; files := (p, text) :: files d |}, None)
|}.

Definition asset (name link : string) (size : Z) : json :=
  JObj [("name", JStr name); ("browser_download_url", JStr link);
        ("size", JInt size)].

Definition release (tag title : string) (assets : list json) : json :=
  JObj [("tag_name", JStr tag); ("name", JStr title);
        ("html_url", JStr ("https://github.com/o/r/releases/tag/" ++ tag));
        ("published_at", JStr "2024-02-05T12:34:56Z");
        ("assets", JArr assets)].

Definition releases : list json :=
  [ release "v1.0.0" "First"
      [asset "App-1.0.0.zip" "https://example.com/App-1.0.0.zip" 1024];
    release "v0.9.0" "Notes only"
      [asset "notes.txt" "https://example.com/notes.txt" 12] ].

Definition two_releases : json := JArr releases.

(** A release with an archive that states no size, and no timestamp. *)
Definition bare_release : json :=
  JObj [("tag_name", JStr "v2.0"); ("name", JStr "Second");
        ("assets",
         JArr [JObj [("name", JStr "App-2.0.PKG");
                     ("browser_download_url", JStr "https://example.com/App-2.0.pkg")]])].

(** A download link with a double quote in it. *)
Definition quoted_link : string :=
  "https://example.com/a" ++ PyStr.dquote ++ "b.zip".

Definition quoted_release : json :=
  release "v1.0.0" "First" [asset "App-1.0.0.zip" quoted_link 1024].

(** A release with an archive, and neither [tag_name] nor [name]. *)
Definition untitled_release : json :=
  JObj [("html_url", JStr "https://github.com/o/r/releases/1");
        ("published_at", JStr "2024-02-05T12:34:56Z");
        ("assets",
         JArr [asset "App-1.0.0.zip" "https://example.com/App-1.0.0.zip" 1024])].

Definition dmg : json := asset "App-1.0.dmg" "https://example.com/App-1.0.dmg" 2048.
Definition zip : json := asset "App-1.0.zip" "https://example.com/App-1.0.zip" 1024.
Definition other_zip : json := asset "App-1.0-arm.ZIP" "https://example.com/arm.zip" 512.

(** A release whose only asset is not an archive. *)
Definition notes_only : list json :=
  [ release "v0.9.0" "Notes only"
      [asset "notes.txt" "https://example.com/notes.txt" 12] ].

(** A release whose [assets] is [null], with a tag that is a number. *)
Definition null_assets : list (string * json) :=
  [("tag_name", JInt 7); ("assets", JNull)].

(** A release with no archive, a number as tag and an unreadable date. *)
Definition unkempt : list (string * json) :=
  [("tag_name", JInt 7); ("published_at", JStr "yesterday");
   ("assets", JArr [asset "notes.txt" "https://example.com/notes.txt" 12])].

(** A release with an archive, no display name and no publication date. *)
Definition draft : json :=
  JObj [("tag_name", JStr "v3.0"); ("name", JNull);
        ("html_url", JStr "https://github.com/o/r/releases/tag/v3.0");
        ("published_at", JNull); ("created_at", JStr "2024-03-01T08:00:00Z");
        ("assets", JArr [dmg; zip])].

(** A release with an archive and a timestamp that is no date. *)
Definition undated : json :=
  JObj [("tag_name", JStr "v1.0"); ("published_at", JStr "yesterday");
        ("assets", JArr [zip])].

(** Releases of all sorts, on which the loop runs. *)
Definition mixed : list json :=
  (releases ++ [bare_release; JObj unkempt; draft;
                JObj [("assets", JObj [])]])%list.

(** A title with an ampersand, an angle bracket and U+0001. *)
Definition control_title : string := "Tom & Jerry <3 " ++ String "001" "".

(** A host whose parser rejects every body. *)
#[local] Instance deaf_host : Host := {|
  unicode := plain_unicode;
  reader := strict_reader;
  repr := fun _ => "[...]";
  json_load := fun _ => inl "Expecting value: line 1 column 1 (char 0)";
  FS := disk_state;
  path_exists := exists_on;
  makedirs := fun d p => ({| dirs := p :: dirs d; files := files d |}, None);
  write_text := fun d p text =>
    ({| dirs := dirs d; files := (p, text) :: files d |}, None)
|}.

Definition a_world (repo : option string) (r : response) : world :=
  {| output := "docs/appcast.xml";
     environ := fun k => if String.eqb k "GITHUB_REPOSITORY" then repo else None;
     urlopen := fun _ => r |}.

End Demo.

(** ** Notions used in the statements *)

(** [n] copies of the letter v. *)
Fixpoint vs (n : nat) : string :=
  match n with
  | O => EmptyString
  | S k => String "v" (vs k)
  end.

Module Xml.

(** What [escape] writes for one character. *)
Definition escape_char (c : ascii) : string :=
  if Ascii.eqb c "&" then "&amp;"
  else if Ascii.eqb c ">" then "&gt;"
  else if Ascii.eqb c "<" then "&lt;"
  else String c EmptyString.

(** The same once [unescape] has put back [<], and then [>]. *)
Definition after_lt (c : ascii) : string :=
  if Ascii.eqb c "&" then "&amp;"
  else if Ascii.eqb c ">" then "&gt;"
  else String c EmptyString.

Definition after_gt (c : ascii) : string :=
  if Ascii.eqb c "&" then "&amp;" else String c EmptyString.

Fixpoint expand (f : ascii -> string) (s : string) : string :=
  match s with
  | EmptyString => EmptyString
  | String c s' => f c ++ expand f s'
  end.

(** The code points of a text, from its UTF-8 bytes; the three-byte
    form of a lone surrogate, which a Python [str] can hold, is decoded
    too.  [None] when the bytes are not UTF-8. *)
Definition continuation (c : ascii) : option N :=
  let n := N_of_ascii c in
  if ((128 <=? n) && (n <? 192))%N then Some (n - 128)%N else None.

Fixpoint code_points (s : string) : option (list N) :=
  match s with
  | EmptyString => Some []
  | String a s1 =>
      let n := N_of_ascii a in
      if (n <? 128)%N then option_map (cons n) (code_points s1)
      else if (n <? 194)%N then None
      else if (n <? 224)%N then
        match s1 with
        | String b s2 =>
            match continuation b with
            | Some x => option_map (cons ((n - 192) * 64 + x)%N) (code_points s2)
            | None => None
            end
        | EmptyString => None
        end
      else if (n <? 240)%N then
        match s1 with
        | String b (String c s3) =>
            match continuation b, continuation c with
            | Some x, Some y =>
                let cp := ((n - 224) * 4096 + x * 64 + y)%N in
                if (cp <? 2048)%N then None
                else option_map (cons cp) (code_points s3)
            | _, _ => None
            end
        | _ => None
        end
      else if (n <? 245)%N then
        match s1 with
        | String b (String c (String d s4)) =>
            match continuation b, continuation c, continuation d with
            | Some x, Some y, Some z =>
                let cp := ((n - 240) * 262144 + x * 4096 + y * 64 + z)%N in
                if ((cp <? 65536) || (1114111 <? cp))%N then None
                else option_map (cons cp) (code_points s4)
            | _, _, _ => None
            end
        | _ => None
        end
      else None
  end.

(** The production [Char] of XML 1.0: tab, line feed, carriage return,
    and the code points from U+0020 on that are neither surrogates nor
    U+FFFE or U+FFFF. *)
Definition xml_char (cp : N) : bool :=
  ((cp =? 9) || (cp =? 10) || (cp =? 13) ||
   (32 <=? cp) && (cp <=? 55295) ||
   (57344 <=? cp) && (cp <=? 65533) ||
   (65536 <=? cp) && (cp <=? 1114111))%N.

(** A text made of characters an XML document may hold. *)
Definition legal (s : string) : bool :=
  match code_points s with
  | Some cps => forallb xml_char cps
  | None => false
  end.

(** No angle bracket, and every ampersand opens one of the references
    [&amp;], [&lt;], [&gt;]. *)
Fixpoint no_markup (s : string) : bool :=
  match s with
  | EmptyString => true
  | String c s' =>
      negb (Ascii.eqb c "<") && negb (Ascii.eqb c ">") &&
      (negb (Ascii.eqb c "&") ||
       String.prefix "amp;" s' || String.prefix "lt;" s' || String.prefix "gt;" s') &&
      no_markup s'
  end.

(** Text that can stand between two tags of a well-formed document. *)
Definition char_data (s : string) : bool := no_markup s && legal s.

(** No double quote, no [<], and every ampersand opens a reference. *)
Fixpoint no_quote_nor_markup (s : string) : bool :=
  match s with
  | EmptyString => true
  | String c s' =>
      negb (Ascii.eqb c "034") && negb (Ascii.eqb c "<") &&
      (negb (Ascii.eqb c "&") ||
       String.prefix "amp;" s' || String.prefix "lt;" s' ||
       String.prefix "gt;" s' || String.prefix "quot;" s') &&
      no_quote_nor_markup s'
  end.

(** Text that can stand between the double quotes of an attribute of a
    well-formed document. *)
Definition attribute_value (s : string) : bool :=
  no_quote_nor_markup s && legal s.

(** What [escape] writes for one code point. *)
Definition escape_code_point (cp : N) : list N :=
  if (cp =? 38)%N then [38; 97; 109; 112; 59]%N
  else if (cp =? 62)%N then [38; 103; 116; 59]%N
  else if (cp =? 60)%N then [38; 108; 116; 59]%N
  else [cp].

End Xml.

(** The value under [key], [None] when the key is absent. *)
Definition field (d : json) (key : string) : json :=
  match Py.get d key JNull with
  | Ok v => v
  | Raise _ => JNull
  end.

(** A value is a text, or it fails [if v:]. *)
Definition text_or_falsy (v : json) : bool :=
  match v with
  | JStr _ => true
  | _ => negb (Py.truthy v)
  end.

(** An asset record: a dict whose name, when it has one, is a text. *)
Definition readable_asset (a : json) : bool :=
  match a with
  | JObj _ => text_or_falsy (field a "name")
  | _ => false
  end.

(** The rank of an asset in the table; [None] when no extension of the
    table ends its name. *)
Definition rank `{Host} (a : json) : option Z :=
  match asset_name a with
  | Ok name => first_match name ext_priority
  | Raise _ => None
  end.

(** [best] is the choice among [seen]: an asset of lowest rank, and the
    first of that rank. *)
Definition best_of `{Host} (seen : list json) (best : choice) : Prop :=
  match best with
  | None => forall a, In a seen -> rank a = None
  | Some (a, r) =>
      exists i : nat,
        nth_error seen i = Some a /\ rank a = Some r /\
        forall (j : nat) (b : json) (r' : Z),
          nth_error seen j = Some b -> rank b = Some r' ->
          r <= r' /\ (r' = r -> (i <= j)%nat)
  end.

(** The parts of a release the loop reads. *)
Definition assets_of (rel : json) : json :=
  match Py.get rel "assets" (JArr []) with
  | Ok v => v
  | Raise _ => JArr []
  end.

Definition asset_list (rel : json) : list json :=
  match assets_of rel with
  | JArr l => l
  | _ => []
  end.

Definition timestamp_of (rel : json) : json :=
  Py.or_ (field rel "published_at") (field rel "created_at").

Definition size_of (a : json) : json :=
  match Py.get a "size" (JInt 0) with
  | Ok v => v
  | Raise _ => JInt 0
  end.

(** No timestamp, or one the normalizer reads. *)
Definition readable_date `{Host} (pub : json) : bool :=
  negb (Py.truthy pub) ||
  match iso_to_rfc2822 pub with
  | Ok _ => true
  | Raise _ => false
  end.

(** A release record: a dict whose tag, when it has one, is a text, whose
    timestamp, when it has one, can be read, and whose assets, when it has
    any, are a list of asset records. *)
Definition well_formed_release `{Host} (rel : json) : bool :=
  match rel with
  | JObj _ =>
      text_or_falsy (field rel "tag_name") &&
      readable_date (timestamp_of rel) &&
      match assets_of rel with
      | JArr l => forallb readable_asset l
      | _ => false
      end
  | _ => false
  end.

Definition recognised : list string := [".zip"; ".dmg"; ".pkg"].

Definition name_text (a : json) : string :=
  match field a "name" with
  | JStr s => s
  | _ => EmptyString
  end.

(** The name of the asset ends, whatever the case of its letters, with a
    recognised extension. *)
Definition archive_name `{Host} (a : json) : bool :=
  existsb (fun ext => PyStr.endswith ext (PyStr.lower (name_text a))) recognised.

(** The release has an asset with such a name. *)
Definition qualifies `{Host} (rel : json) : bool :=
  existsb archive_name (asset_list rel).

(** The item appended for [rel] when [a] is its preferred asset. *)
Definition item_of `{Host} (rel a : json) (date version : string) : Item.t :=
  Item.make (Py.or_ (field rel "name") (field rel "tag_name"))
            (field rel "html_url") date
            (field a "browser_download_url") (str (size_of a)) version.

(** The request did not bring back a body. *)
Definition failed (r : response) : bool :=
  match r with
  | Body _ => false
  | HTTPError _ | URLError _ | Raised _ => true
  end.

(** It failed with one of the two exceptions [main] catches. *)
Definition caught (r : response) : bool :=
  match r with
  | HTTPError _ | URLError _ => true
  | Raised _ | Body _ => false
  end.

(** *** Letter case, stated apart from [lower] *)

Definition letters : list (ascii * ascii) :=
  [("a", "A"); ("b", "B"); ("c", "C"); ("d", "D"); ("e", "E"); ("f", "F");
   ("g", "G"); ("h", "H"); ("i", "I"); ("j", "J"); ("k", "K"); ("l", "L");
   ("m", "M"); ("n", "N"); ("o", "O"); ("p", "P"); ("q", "Q"); ("r", "R");
   ("s", "S"); ("t", "T"); ("u", "U"); ("v", "V"); ("w", "W"); ("x", "X");
   ("y", "Y"); ("z", "Z")]%char.

(** The same character, or the two cases of one letter. *)
Definition same_letter (c d : ascii) : bool :=
  Ascii.eqb c d ||
  existsb (fun p => Ascii.eqb c (fst p) && Ascii.eqb d (snd p) ||
                    Ascii.eqb c (snd p) && Ascii.eqb d (fst p)) letters.

(** Two texts that differ by the case of their letters at most. *)
Fixpoint caseless (s t : string) : bool :=
  match s, t with
  | EmptyString, EmptyString => true
  | String c s', String d t' => same_letter c d && caseless s' t'
  | _, _ => false
  end.

(** *** The releases on which the body of the loop raises nothing *)

(** Assets the loop can run over: a list of asset records, or an empty
    dict or text. *)
Definition readable_assets (v : json) : bool :=
  match v with
  | JArr l => forallb readable_asset l
  | JObj [] => true
  | JStr EmptyString => true
  | _ => false
  end.

(** The release is a dict, its assets can be run over, and, when one of
    them is an archive, its tag is a text or fails [if tag] and its
    timestamp is missing or readable. *)
Definition loop_runs `{Host} (rel : json) : bool :=
  match rel with
  | JObj _ =>
      readable_assets (assets_of rel) &&
      (negb (qualifies rel) ||
       text_or_falsy (field rel "tag_name") && readable_date (timestamp_of rel))
  | _ => false
  end.

(** *** Dates, written out *)

Definition digit_char (k : Z) : ascii := ascii_of_N (48 + Z.to_N k).

(** A number below 100 on two digits, below 10000 on four. *)
Definition two (n : Z) : string :=
  String (digit_char (n / 10)) (String (digit_char (n mod 10)) EmptyString).

Definition four (n : Z) : string := two (n / 100) ++ two (n mod 100).

(** [YYYY-MM-DDTHH:MM:SSZ] *)
Definition zulu (y m d h mi s : Z) : string :=
  four y ++ "-" ++ two m ++ "-" ++ two d ++ "T" ++
  two h ++ ":" ++ two mi ++ ":" ++ two s ++ "Z".

(** The day of the week of a date, 0 for Monday. *)
Definition weekday_of (y m d : Z) : Z :=
  Datetime.weekday (Datetime.mk_datetime y m d 0 0 0 0 None).

(** [Day, DD Mon YYYY HH:MM:SS +0000] *)
Definition rfc2822_utc (y m d h mi s : Z) : string :=
  nth (Z.to_nat (weekday_of y m d)) Datetime.day_names "" ++ ", " ++
  two d ++ " " ++ nth (Z.to_nat (m - 1)) Datetime.month_names "" ++ " " ++
  PyStr.of_int y ++ " " ++ two h ++ ":" ++ two mi ++ ":" ++ two s ++ " +0000".

(** The day after. *)
Definition tomorrow (y m d : Z) : Z * Z * Z :=
  if d <? Datetime.days_in_month y m then (y, m, d + 1)
  else if m <? 12 then (y, m + 1, 1)
  else (y + 1, 1, 1).

(** The arguments of the calls of [os.makedirs] in the course of a run. *)
Definition makedirs_calls (t : list event) : list string :=
  flat_map (fun e => match e with Makedirs p => [p] | _ => [] end) t.

(** The requests sent in the course of a run. *)
Definition requests (t : list event) : list request :=
  flat_map (fun e => match e with Fetch r => [r] | _ => [] end) t.

Definition is_text (v : json) : bool :=
  match v with
  | JStr _ => true
  | _ => false
  end.

(** An item whose title, notes link and download link are texts. *)
Definition text_item (it : Item.t) : bool :=
  is_text (Item.title it) && is_text (Item.notes it) && is_text (Item.url it).

(** A text with none of the characters [escape] rewrites. *)
Definition plain (s : string) : bool :=
  negb (PyStr.mem "&" s) && negb (PyStr.mem "<" s) && negb (PyStr.mem ">" s).

(** A value a [for] loop cannot run over. *)
Definition not_iterable (v : json) : bool :=
  match v with
  | JNull | JBool _ | JInt _ => true
  | JStr _ | JArr _ | JObj _ => false
  end.

(** The two lines appended after the items. *)
Definition closing : list string := ["</channel>"; "</rss>"].

(** A text made of decimal digits and minus signs. *)
Fixpoint decimal_text (s : string) : bool :=
  match s with
  | EmptyString => true
  | String c s' => PyStr.mem c "-0123456789" && decimal_text s'
  end.

(** An item all of whose fields are texts. *)
Definition text_fields (title notes date link size version : string) : Item.t :=
  Item.make (JStr title) (JStr notes) date (JStr link) size version.

(** ** Facts about the methods of [str] *)

Section StrFacts.

Lemma append_empty_r (s : string) : s ++ "" = s.
Proof. induction s as [|c s IH]; simpl; [reflexivity | now rewrite IH]. Qed.

Lemma append_assoc (a b c : string) : (a ++ b) ++ c = a ++ (b ++ c).
Proof. induction a as [|x a IH]; simpl; [reflexivity | now rewrite IH]. Qed.

Lemma prefix_cons (c d : ascii) (p s : string) :
  String.prefix (String c p) (String d s) = Ascii.eqb c d && String.prefix p s.
Proof.
  cbn [String.prefix].
  destruct (ascii_dec c d) as [E|E], (Ascii.eqb_spec c d) as [E'|E'];
    try reflexivity; contradiction.
Qed.

Lemma prefix_empty (s : string) : String.prefix "" s = true.
Proof. destruct s; reflexivity. Qed.

Lemma mem_v (c : ascii) : PyStr.mem c "v" = Ascii.eqb c "v".
Proof. simpl. now rewrite orb_false_r. Qed.

(** [lstrip('v')] splits its argument into a run of v and a rest that
    starts with another character. *)
Lemma lstrip_v_split (s : string) :
  exists n, s = vs n ++ PyStr.lstrip "v" s /\
            PyStr.startswith "v" (PyStr.lstrip "v" s) = false.
Proof.
  induction s as [|c s [n [Hs Hp]]].
  - exists O. split; reflexivity.
  - cbn [PyStr.lstrip]. rewrite mem_v.
    destruct (Ascii.eqb_spec c "v") as [->|Hc].
    + exists (S n). split; [simpl; now rewrite <- Hs | exact Hp].
    + exists O. split; [reflexivity|].
      unfold PyStr.startswith. rewrite prefix_cons.
      destruct (Ascii.eqb_spec "v" c) as [E|_]; [congruence | reflexivity].
Qed.

Lemma lstrip_other (s : string) :
  PyStr.startswith "v" s = false -> PyStr.lstrip "v" s = s.
Proof.
  destruct s as [|c s]; [reflexivity|].
  unfold PyStr.startswith. cbn [PyStr.lstrip]. rewrite prefix_cons, mem_v.
  rewrite prefix_empty, andb_true_r, Ascii.eqb_sym. now intros ->.
Qed.

Lemma endswith_app (suffix stem : string) :
  PyStr.endswith suffix (stem ++ suffix) = true.
Proof.
  induction stem as [|c stem IH]; cbn [PyStr.endswith String.append].
  - destruct suffix; cbn [PyStr.endswith]; now rewrite String.eqb_refl.
  - rewrite IH. apply orb_true_r.
Qed.

Lemma endswith_split (suffix s : string) :
  PyStr.endswith suffix s = true -> exists stem, s = stem ++ suffix.
Proof.
  induction s as [|c s IH]; cbn [PyStr.endswith].
  - rewrite orb_false_r. intros E%String.eqb_eq. exists "". now subst.
  - intros [E%String.eqb_eq | E]%orb_true_iff.
    + exists "". now subst.
    + destruct (IH E) as [stem ->]. now exists (String c stem).
Qed.

Lemma endswith_iff (suffix s : string) :
  PyStr.endswith suffix s = true <-> exists stem, s = stem ++ suffix.
Proof.
  split; [apply endswith_split | intros [stem ->]; apply endswith_app].
Qed.

End StrFacts.

(** The library calls on some inputs, as Python answers them. *)

Example lower_mixed : PyStr.lower_ascii "App-1.0.ZiP" = "app-1.0.zip".
Proof. reflexivity. Qed.

Example replace_all : PyStr.replace "ab" "x" "abcabab" = "xcxx".
Proof. reflexivity. Qed.

Example replace_no_overlap : PyStr.replace "aa" "b" "aaa" = "ba".
Proof. reflexivity. Qed.

Example replace_empty_old : PyStr.replace "" "-" "abc" = "-a-b-c-".
Proof. reflexivity. Qed.

Example lstrip_set : PyStr.lstrip "xy" "yxxzy" = "zy".
Proof. reflexivity. Qed.

Example dirname_samples :
  map Path.dirname ["docs/appcast.xml"; "appcast.xml"; "/a"; "a/b//c"; "/"; "a//"] =
  ["docs"; ""; "/"; "a/b"; "/"; "a"].
Proof. reflexivity. Qed.

Example str_samples (H : Host) :
  map str [JNull; JBool true; JInt 0; JInt (-5); JStr "12"] =
  ["None"; "True"; "0"; "-5"; "12"].
Proof. reflexivity. Qed.

Example leap_day (H : Host) :
  iso_to_rfc2822 (JStr "2000-02-29T23:59:59Z") = Ok "Tue, 29 Feb 2000 23:59:59 +0000".
Proof. vm_compute. reflexivity. Qed.

Example offset_kept (H : Host) :
  iso_to_rfc2822 (JStr "2024-02-05T12:34:56-05:30") = Ok "Mon, 05 Feb 2024 12:34:56 -0530".
Proof. vm_compute. reflexivity. Qed.

Example fraction_dropped (H : Host) :
  iso_to_rfc2822 (JStr "2024-02-05T12:34:56.789Z") = Ok "Mon, 05 Feb 2024 12:34:56 +0000".
Proof. vm_compute. reflexivity. Qed.

Example naive_minutes (H : Host) :
  iso_to_rfc2822 (JStr "2024-02-05T12:34") = Ok "Mon, 05 Feb 2024 12:34:00 ".
Proof. vm_compute. reflexivity. Qed.

Example not_a_date (H : Host) :
  iso_to_rfc2822 (JStr "yesterday") = Raise ValueError.
Proof. vm_compute. reflexivity. Qed.

(** ** The version extractor *)

Lemma version_of_text (tag : string) :
  version_of (JStr tag) = Ok (PyStr.lstrip "v" tag).
Proof.
  unfold version_of. simpl. destruct tag; reflexivity.
Qed.

(** C1, as the specification words it, fails: of the tag [vv2.3.1] the
    script keeps [2.3.1], and not the tag less its first character,
    [v2.3.1]. *)
Lemma version_of_vv_not_one_char :
  version_of (JStr "vv2.3.1") = Ok "2.3.1" /\
  version_of (JStr "vv2.3.1") <> Ok "v2.3.1".
Proof. split; [reflexivity | discriminate]. Qed.

(** C1, amended: for every tag name the version is the tag without its
    whole leading run of v characters.  The tag is some number [n] of v
    followed by the version, and the version does not start with v; so a
    tag with no leading v is returned unchanged, a tag with one loses that
    one character ([v2.3.1] gives [2.3.1]), [vv2.3.1] gives [2.3.1] as well,
    and an absent tag gives the empty string. *)
Theorem version_of_strips_leading_vs :
  (forall tag : string,
      exists (n : nat) (v : string),
        version_of (JStr tag) = Ok v /\
        tag = vs n ++ v /\
        PyStr.startswith "v" v = false /\
        (PyStr.startswith "v" tag = false -> v = tag)) /\
  version_of (JStr "v2.3.1") = Ok "2.3.1" /\
  version_of (JStr "2.3.1") = Ok "2.3.1" /\
  version_of (JStr "vv2.3.1") = Ok "2.3.1" /\
  version_of JNull = Ok "".
Proof.
  split; [|repeat split; reflexivity].
  intros tag. destruct (lstrip_v_split tag) as [n [Hs Hp]].
  exists n, (PyStr.lstrip "v" tag). repeat split.
  - apply version_of_text.
  - exact Hs.
  - exact Hp.
  - apply lstrip_other.
Qed.

(** ** Escaping *)

Section Escaping.

Lemma expand_app (f : ascii -> string) (a b : string) :
  Xml.expand f (a ++ b) = Xml.expand f a ++ Xml.expand f b.
Proof.
  induction a as [|c a IH]; cbn [Xml.expand String.append]; [reflexivity|].
  now rewrite IH, append_assoc.
Qed.

Lemma expand_id (s : string) :
  Xml.expand (fun c => String c EmptyString) s = s.
Proof. induction s as [|c s IH]; simpl; [reflexivity | now rewrite IH]. Qed.

(** Replacing a one-character [old] rewrites character by character. *)
Lemma replace_char (c : ascii) (new s : string) :
  PyStr.replace (String c EmptyString) new s =
  Xml.expand (fun d => if Ascii.eqb d c then new else String d EmptyString) s.
Proof.
  unfold PyStr.replace.
  induction s as [|d s IH]; cbn [PyStr.replace_from Xml.expand]; [reflexivity|].
  rewrite prefix_cons, prefix_empty, andb_true_r, Ascii.eqb_sym.
  change (String.length (String c EmptyString) - 1)%nat with O.
  rewrite IH. now destruct (Ascii.eqb d c).
Qed.

Lemma escape_text_expand (s : string) :
  Sax.escape_text s = Xml.expand Xml.escape_char s.
Proof.
  unfold Sax.escape_text. rewrite !replace_char.
  induction s as [|c s IH]; [reflexivity|].
  cbn [Xml.expand]. rewrite !expand_app, IH. f_equal.
  unfold Xml.escape_char.
  destruct (Ascii.eqb_spec c "&") as [->|Hamp]; [reflexivity|].
  cbn [Xml.expand String.append].
  destruct (Ascii.eqb_spec c ">") as [->|Hgt]; [reflexivity|].
  cbn [Xml.expand String.append].
  destruct (Ascii.eqb_spec c "<") as [->|Hlt]; reflexivity.
Qed.

Lemma escape_text_app (a b : string) :
  Sax.escape_text (a ++ b) = Sax.escape_text a ++ Sax.escape_text b.
Proof. rewrite !escape_text_expand. apply expand_app. Qed.

(** One pass of [replace] over a text written character by character. *)
Lemma replace_pass (old new : string) (f g : ascii -> string) :
  (forall c rest,
      PyStr.replace_from old new O (f c ++ rest) =
      g c ++ PyStr.replace_from old new O rest) ->
  forall s, PyStr.replace_from old new O (Xml.expand f s) = Xml.expand g s.
Proof.
  intros step s. induction s as [|c s IH]; [reflexivity|].
  cbn [Xml.expand]. now rewrite step, IH.
Qed.

Ltac scan :=
  repeat (cbn [PyStr.replace_from String.append String.length Nat.sub];
          rewrite ?prefix_cons, ?prefix_empty;
          cbn [Ascii.eqb Bool.eqb andb]).

Ltac other_char c :=
  cbn [PyStr.replace_from String.append]; rewrite prefix_cons;
  let E := fresh in
  destruct (Ascii.eqb_spec "&" c) as [E|E]; [congruence | reflexivity].

Lemma pass_lt (s : string) :
  PyStr.replace "&lt;" "<" (Xml.expand Xml.escape_char s) = Xml.expand Xml.after_lt s.
Proof.
  unfold PyStr.replace. apply replace_pass. intros c rest.
  unfold Xml.escape_char, Xml.after_lt.
  destruct (Ascii.eqb_spec c "&") as [->|Hamp]; [now scan|].
  destruct (Ascii.eqb_spec c ">") as [->|Hgt]; [now scan|].
  destruct (Ascii.eqb_spec c "<") as [->|Hlt]; [now scan|].
  other_char c.
Qed.

Lemma pass_gt (s : string) :
  PyStr.replace "&gt;" ">" (Xml.expand Xml.after_lt s) = Xml.expand Xml.after_gt s.
Proof.
  unfold PyStr.replace. apply replace_pass. intros c rest.
  unfold Xml.after_lt, Xml.after_gt.
  destruct (Ascii.eqb_spec c "&") as [->|Hamp]; [now scan|].
  destruct (Ascii.eqb_spec c ">") as [->|Hgt]; [now scan|].
  other_char c.
Qed.

Lemma pass_amp (s : string) :
  PyStr.replace "&amp;" "&" (Xml.expand Xml.after_gt s) = s.
Proof.
  rewrite <- (expand_id s) at 2.
  unfold PyStr.replace. apply replace_pass. intros c rest.
  unfold Xml.after_gt.
  destruct (Ascii.eqb_spec c "&") as [->|Hamp]; [now scan|].
  other_char c.
Qed.

Lemma unescape_escape (s : string) :
  Sax.unescape_text (Sax.escape_text s) = s.
Proof.
  unfold Sax.unescape_text.
  now rewrite escape_text_expand, pass_lt, pass_gt, pass_amp.
Qed.

Ltac reference :=
  cbn [String.append Xml.no_markup];
  rewrite ?prefix_cons, ?prefix_empty;
  cbn [Ascii.eqb Bool.eqb andb orb negb].

Lemma no_markup_escape (s : string) :
  Xml.no_markup (Sax.escape_text s) = true.
Proof.
  rewrite escape_text_expand.
  induction s as [|c s IH]; [reflexivity|].
  cbn [Xml.expand]. set (rest := Xml.expand Xml.escape_char s) in *.
  unfold Xml.escape_char.
  destruct (Ascii.eqb_spec c "&") as [->|Hamp]; [now reference|].
  destruct (Ascii.eqb_spec c ">") as [->|Hgt]; [now reference|].
  destruct (Ascii.eqb_spec c "<") as [->|Hlt]; [now reference|].
  cbn [String.append Xml.no_markup]. rewrite IH.
  apply Ascii.eqb_neq in Hamp, Hgt, Hlt. now rewrite Hamp, Hgt, Hlt.
Qed.

End Escaping.

(** ** Characters XML allows *)

Section Characters.

Lemma continuation_high (b : ascii) (x : N) :
  Xml.continuation b = Some x -> Xml.escape_char b = String b EmptyString.
Proof.
  unfold Xml.continuation, Xml.escape_char.
  destruct (Ascii.eqb_spec b "&") as [->|_]; [discriminate|].
  destruct (Ascii.eqb_spec b ">") as [->|_]; [discriminate|].
  destruct (Ascii.eqb_spec b "<") as [->|_]; [discriminate|].
  reflexivity.
Qed.

Lemma high_not_special (a : ascii) :
  (N_of_ascii a <? 128)%N = false -> Xml.escape_char a = String a EmptyString.
Proof.
  unfold Xml.escape_char.
  destruct (Ascii.eqb_spec a "&") as [->|_]; [discriminate|].
  destruct (Ascii.eqb_spec a ">") as [->|_]; [discriminate|].
  destruct (Ascii.eqb_spec a "<") as [->|_]; [discriminate|].
  reflexivity.
Qed.

(** The head of an escaped text is the head of the text when that is a
    continuation byte, and is no continuation byte otherwise. *)
Lemma expand_continuation (b : ascii) (s : string) (x : N) :
  Xml.continuation b = Some x ->
  Xml.expand Xml.escape_char (String b s) =
  String b (Xml.expand Xml.escape_char s).
Proof.
  intros Hb. cbn [Xml.expand]. now rewrite (continuation_high b x Hb).
Qed.

Lemma expand_no_continuation (b : ascii) (s : string) :
  Xml.continuation b = None ->
  exists b' r,
    Xml.expand Xml.escape_char (String b s) = String b' r /\
    Xml.continuation b' = None.
Proof.
  intros Hb. cbn [Xml.expand]. unfold Xml.escape_char.
  destruct (Ascii.eqb b "&"); [now eexists _, _|].
  destruct (Ascii.eqb b ">"); [now eexists _, _|].
  destruct (Ascii.eqb b "<"); [now eexists _, _|].
  now exists b, (Xml.expand Xml.escape_char s).
Qed.

Lemma N_of_ascii_eqb (a b : ascii) :
  (N_of_ascii a =? N_of_ascii b)%N = Ascii.eqb a b.
Proof.
  destruct (Ascii.eqb_spec a b) as [->|Hne]; [apply N.eqb_refl|].
  apply N.eqb_neq. intros E. apply Hne.
  now rewrite <- (ascii_N_embedding a), <- (ascii_N_embedding b), E.
Qed.

(** An ASCII character at the head of a text. *)
Lemma code_points_ascii (a : ascii) (r : string) :
  (N_of_ascii a <? 128)%N = true ->
  Xml.code_points (Xml.escape_char a ++ r) =
  option_map (app (Xml.escape_code_point (N_of_ascii a))) (Xml.code_points r).
Proof.
  intros Ha. unfold Xml.escape_char, Xml.escape_code_point.
  change 38%N with (N_of_ascii "&"). change 62%N with (N_of_ascii ">").
  change 60%N with (N_of_ascii "<"). rewrite !N_of_ascii_eqb.
  destruct (Ascii.eqb_spec a "&") as [->|_];
    [cbn; now destruct (Xml.code_points r)|].
  destruct (Ascii.eqb_spec a ">") as [->|_];
    [cbn; now destruct (Xml.code_points r)|].
  destruct (Ascii.eqb_spec a "<") as [->|_];
    [cbn; now destruct (Xml.code_points r)|].
  cbn [String.append Xml.code_points]. rewrite Ha.
  now destruct (Xml.code_points r).
Qed.

Lemma escape_code_point_high (cp : N) :
  (128 <= cp)%N -> Xml.escape_code_point cp = [cp].
Proof.
  intros Hcp. unfold Xml.escape_code_point.
  destruct (N.eqb_spec cp 38); [lia|].
  destruct (N.eqb_spec cp 62); [lia|].
  destruct (N.eqb_spec cp 60); [lia|]. reflexivity.
Qed.

Lemma map_cons_high (cp : N) (x : option (list N)) :
  (128 <= cp)%N ->
  option_map (flat_map Xml.escape_code_point) (option_map (cons cp) x) =
  option_map (cons cp) (option_map (flat_map Xml.escape_code_point) x).
Proof.
  intros Hcp. destruct x as [l|]; [|reflexivity].
  cbn [option_map flat_map]. now rewrite (escape_code_point_high cp Hcp).
Qed.

Ltac no_cont Hb :=
  let b' := fresh "b'" in let r := fresh "r" in
  let E := fresh "E" in let Hb' := fresh "Hb'" in
  match type of Hb with
  | Xml.continuation ?b = None =>
      match goal with
      | |- context [Xml.expand Xml.escape_char (String b ?s)] =>
          destruct (expand_no_continuation b s Hb) as (b' & r & E & Hb');
          rewrite E;
          repeat match goal with
                 | |- context [match ?x with EmptyString => _ | String _ _ => _ end] =>
                     is_var x; destruct x
                 end;
          rewrite ?Hb, ?Hb'; reflexivity
      end
  end.

Lemma code_points_expand (n : nat) :
  forall s : string,
    (String.length s <= n)%nat ->
    Xml.code_points (Xml.expand Xml.escape_char s) =
    option_map (flat_map Xml.escape_code_point) (Xml.code_points s).
Proof.
  induction n as [|n IH]; intros s Hlen.
  - destruct s; [reflexivity | cbn in Hlen; lia].
  - destruct s as [|a s1]; [reflexivity|]. cbn [String.length] in Hlen.
    destruct (N_of_ascii a <? 128)%N eqn:Ha.
    + cbn [Xml.expand]. rewrite (code_points_ascii a _ Ha), IH by lia.
      cbn [Xml.code_points]. rewrite Ha.
      now destruct (Xml.code_points s1).
    + cbn [Xml.expand]. rewrite (high_not_special a Ha).
      cbn [String.append Xml.code_points]. rewrite Ha.
      apply N.ltb_ge in Ha.
      destruct (N_of_ascii a <? 194)%N eqn:H194; [reflexivity|].
      apply N.ltb_ge in H194.
      destruct (N_of_ascii a <? 224)%N.
      { destruct s1 as [|b s2]; [reflexivity|].
        destruct (Xml.continuation b) as [x|] eqn:Hb; [|no_cont Hb].
        rewrite (expand_continuation b s2 x Hb), Hb.
        cbn [String.length] in Hlen. rewrite IH by lia.
        symmetry. apply map_cons_high. lia. }
      destruct (N_of_ascii a <? 240)%N.
      { destruct s1 as [|b s2]; [reflexivity|].
        destruct (Xml.continuation b) as [x|] eqn:Hb; [|no_cont Hb].
        rewrite (expand_continuation b s2 x Hb).
        destruct s2 as [|c s3]; [reflexivity|]. rewrite Hb.
        destruct (Xml.continuation c) as [y|] eqn:Hc; [|no_cont Hc].
        rewrite (expand_continuation c s3 y Hc), Hc.
        cbn zeta.
        destruct (_ <? 2048)%N eqn:Hcp; [reflexivity|]. apply N.ltb_ge in Hcp.
        cbn [String.length] in Hlen. rewrite IH by lia.
        symmetry. apply map_cons_high. lia. }
      destruct (N_of_ascii a <? 245)%N; [|reflexivity].
      destruct s1 as [|b s2]; [reflexivity|].
      destruct (Xml.continuation b) as [x|] eqn:Hb;
        [|no_cont Hb].
      rewrite (expand_continuation b s2 x Hb).
      destruct s2 as [|c s3]; [reflexivity|]. rewrite Hb.
      destruct (Xml.continuation c) as [y|] eqn:Hc;
        [|no_cont Hc].
      rewrite (expand_continuation c s3 y Hc).
      destruct s3 as [|d s4]; [reflexivity|]. rewrite Hc.
      destruct (Xml.continuation d) as [z|] eqn:Hd; [|no_cont Hd].
      rewrite (expand_continuation d s4 z Hd), Hd.
      cbn zeta.
      destruct (_ || _)%bool eqn:Hcp; [reflexivity|].
      apply orb_false_iff in Hcp as [Hcp _]. apply N.ltb_ge in Hcp.
      cbn [String.length] in Hlen. rewrite IH by lia.
      symmetry. apply map_cons_high. lia.
Qed.

Lemma xml_char_escape (cp : N) :
  forallb Xml.xml_char (Xml.escape_code_point cp) = Xml.xml_char cp.
Proof.
  unfold Xml.escape_code_point.
  destruct (N.eqb_spec cp 38) as [->|_]; [reflexivity|].
  destruct (N.eqb_spec cp 62) as [->|_]; [reflexivity|].
  destruct (N.eqb_spec cp 60) as [->|_]; [reflexivity|].
  cbn [forallb]. apply andb_true_r.
Qed.

(** Escaping neither brings in nor takes out a character XML forbids. *)
Lemma legal_escape (s : string) :
  Xml.legal (Sax.escape_text s) = Xml.legal s.
Proof.
  unfold Xml.legal.
  rewrite escape_text_expand, (code_points_expand (String.length s) s (le_n _)).
  destruct (Xml.code_points s) as [l|]; [|reflexivity]. cbn [option_map].
  induction l as [|cp l IH]; [reflexivity|].
  cbn [flat_map forallb]. now rewrite forallb_app, xml_char_escape, IH.
Qed.

Lemma char_data_escape (s : string) :
  Xml.char_data (Sax.escape_text s) = Xml.legal s.
Proof.
  unfold Xml.char_data. now rewrite no_markup_escape, legal_escape.
Qed.

End Characters.

(** C9, as the specification words it, fails: the title
    [Demo.control_title] has an ampersand and an angle bracket, both are
    escaped, and yet what is written between the tags is not character
    data of a well-formed document, for U+0001 is written as it is. *)
Lemma title_with_control_character :
  PyStr.mem "&" Demo.control_title = true /\
  PyStr.mem "<" Demo.control_title = true /\
  Sax.escape_text Demo.control_title =
    "Tom &amp; Jerry &lt;3 " ++ String "001" "" /\
  Xml.char_data (Sax.escape_text Demo.control_title) = false.
Proof. repeat split. Qed.

(** C9, amended: for every release title [t], with or without [&] and
    [<], the text written between [<title>] and [</title>] is [escape] of
    [t]; it has no angle bracket and no ampersand but those that open
    [&amp;], [&lt;] and [&gt;]; unescaping it gives back [t]; and it is
    character data of a well-formed document exactly when [t] is made of
    characters XML allows. *)
Theorem title_escape_round_trip :
  forall t : string,
    (forall (n d u l v : string),
        exists rest,
          item_lines (Item.make (JStr t) (JStr n) d (JStr u) l v) =
          Ok ("<item>" :: ("<title>" ++ Sax.escape_text t ++ "</title>") :: rest)) /\
    Xml.no_markup (Sax.escape_text t) = true /\
    Sax.unescape_text (Sax.escape_text t) = t /\
    Xml.char_data (Sax.escape_text t) = Xml.legal t.
Proof.
  intros t. split; [|split; [|split]].
  - intros n d u l v. eexists. reflexivity.
  - apply no_markup_escape.
  - apply unescape_escape.
  - apply char_data_escape.
Qed.

Example escape_title : Sax.escape_text "Tom & Jerry <3" = "Tom &amp; Jerry &lt;3".
Proof. reflexivity. Qed.

(** C3 at a download link that holds a double quote: [escape] passes the
    double quote through, the link goes unchanged into the [url] attribute
    of the enclosure, and it is not a well-formed attribute value. *)
Theorem escape_keeps_double_quote :
  (forall a b : string,
      Sax.escape_text (a ++ PyStr.dquote ++ b) =
      Sax.escape_text a ++ PyStr.dquote ++ Sax.escape_text b) /\
  Xml.attribute_value (Sax.escape_text Demo.quoted_link) = false /\
  (forall H : Host,
      exists it l1 l2 l3 l4 l6,
        build_items (JArr [Demo.quoted_release]) = Ok [it] /\
        item_lines it =
        Ok [l1; l2; l3; l4; enclosure Demo.quoted_link "1.0.0" "1024"; l6]).
Proof.
  split; [|split].
  - intros a b. now rewrite !escape_text_app.
  - reflexivity.
  - intros H. do 6 eexists. split; reflexivity.
Qed.

(** ** The asset selector *)

Section Selection.

Context `{Host}.

Lemma readable_asset_name (a : json) :
  readable_asset a = true -> exists name, asset_name a = Ok name.
Proof.
  destruct a as [| | | |l|m]; try discriminate.
  unfold readable_asset, field, asset_name. cbn [Py.get].
  destruct (Py.lookup "name" m) as [v|]; cbn [bind].
  - destruct v as [|b|n|s|l|l']; cbn [text_or_falsy]; intros Hv;
      unfold Py.or_; try (apply negb_true_iff in Hv; rewrite Hv);
      try (now eexists).
    destruct (Py.truthy (JStr s)); now eexists.
  - intros _. now eexists.
Qed.

Lemma best_of_nil : best_of [] None.
Proof. intros a []. Qed.

Lemma nth_error_snoc (seen : list json) (a b : json) (j : nat) :
  nth_error (seen ++ [a]) j = Some b ->
  nth_error seen j = Some b \/ (j = List.length seen /\ b = a).
Proof.
  intros Hj. destruct (Nat.lt_ge_cases j (List.length seen)) as [Hlt|Hge].
  - left. now rewrite nth_error_app1 in Hj.
  - right. rewrite nth_error_app2 in Hj by exact Hge.
    destruct (j - List.length seen)%nat as [|k] eqn:Hk; cbn in Hj.
    + split; [lia | congruence].
    + destruct k; discriminate.
Qed.

Lemma nth_error_last (seen : list json) (a : json) :
  nth_error (seen ++ [a]) (List.length seen) = Some a.
Proof. rewrite nth_error_app2, Nat.sub_diag by lia. reflexivity. Qed.

Lemma nth_error_bound (seen : list json) (i : nat) (a : json) :
  nth_error seen i = Some a -> (i < List.length seen)%nat.
Proof. intros Hi. apply nth_error_Some. congruence. Qed.

(** One turn of the loop keeps the choice the best of what was seen. *)
Lemma consider_best (seen : list json) (best : choice) (a : json) :
  readable_asset a = true ->
  best_of seen best ->
  exists best', consider best a = Ok best' /\ best_of (seen ++ [a]) best'.
Proof.
  intros Ha Hbest. destruct (readable_asset_name a Ha) as [name Hname].
  unfold consider. rewrite Hname. cbn [bind].
  assert (Hrank : rank a = first_match name ext_priority)
    by (unfold rank; now rewrite Hname).
  destruct (first_match name ext_priority) as [prio|].
  - destruct best as [[p r]|].
    + destruct Hbest as [i [Hi [Hr Hmin]]].
      destruct (Z.ltb_spec prio r) as [Hlt|Hge]; eexists; (split; [reflexivity|]).
      * exists (List.length seen). split; [apply nth_error_last|]. split; [exact Hrank|].
        intros j b r' Hj Hb.
        destruct (nth_error_snoc _ _ _ _ Hj) as [Hin|[-> ->]].
        -- destruct (Hmin j b r' Hin Hb) as [Hle _]. lia.
        -- rewrite Hrank in Hb. injection Hb as <-. lia.
      * exists i. split.
        { rewrite nth_error_app1; [exact Hi | eapply nth_error_bound; eassumption]. }
        split; [exact Hr|].
        intros j b r' Hj Hb.
        destruct (nth_error_snoc _ _ _ _ Hj) as [Hin|[-> ->]].
        -- exact (Hmin j b r' Hin Hb).
        -- rewrite Hrank in Hb. injection Hb as <-.
           split; [lia|]. intros _.
           apply nth_error_bound in Hi. lia.
    + eexists. split; [reflexivity|].
      exists (List.length seen). split; [apply nth_error_last|]. split; [exact Hrank|].
      intros j b r' Hj Hb.
      destruct (nth_error_snoc _ _ _ _ Hj) as [Hin|[-> ->]].
      * apply nth_error_In in Hin. rewrite (Hbest b Hin) in Hb. discriminate.
      * rewrite Hrank in Hb. injection Hb as <-. lia.
  - exists best. split; [reflexivity|].
    destruct best as [[p r]|].
    + destruct Hbest as [i [Hi [Hr Hmin]]].
      exists i. split.
      { rewrite nth_error_app1; [exact Hi | eapply nth_error_bound; eassumption]. }
      split; [exact Hr|].
      intros j b r' Hj Hb.
      destruct (nth_error_snoc _ _ _ _ Hj) as [Hin|[-> ->]].
      * exact (Hmin j b r' Hin Hb).
      * congruence.
    + intros b [Hb|[<-|[]]]%in_app_or; [now apply Hbest | exact Hrank].
Qed.

Lemma select_from_best (assets seen : list json) (best : choice) :
  forallb readable_asset assets = true ->
  best_of seen best ->
  exists best',
    select_from best assets = Ok best' /\ best_of (seen ++ assets) best'.
Proof.
  revert seen best. induction assets as [|a assets IH]; intros seen best Hall Hbest.
  - exists best. rewrite app_nil_r. now split.
  - cbn [forallb] in Hall. apply andb_true_iff in Hall as [Ha Hall].
    destruct (consider_best seen best a Ha Hbest) as [best1 [Hstep Hbest1]].
    destruct (IH (seen ++ [a])%list best1 Hall Hbest1) as [best' [Hrun Hbest']].
    exists best'. cbn [select_from]. rewrite Hstep. cbn [bind].
    split; [exact Hrun|]. now rewrite <- app_assoc in Hbest'.
Qed.

Lemma select_asset_best (assets : list json) :
  forallb readable_asset assets = true ->
  exists best, select_asset (JArr assets) = Ok best /\ best_of assets best.
Proof.
  intros Hall.
  destruct (select_from_best assets [] None Hall best_of_nil) as [best [Hrun Hbest]].
  exists best. split; [exact Hrun | exact Hbest].
Qed.

Lemma rank_table (a : json) (name : string) :
  asset_name a = Ok name ->
  rank a =
  if PyStr.endswith ".zip" name then Some 0
  else if PyStr.endswith ".dmg" name then Some 1
  else if PyStr.endswith ".pkg" name then Some 2
  else None.
Proof. intros Hname. unfold rank. rewrite Hname. reflexivity. Qed.

End Selection.

(** C4: on every list of asset records the selector returns an asset of
    the lowest rank present, ranks being those of the table ([.zip] 0,
    [.dmg] 1, [.pkg] 2, by the first extension of the table that ends the
    lowered name), and of the assets of that rank the first in list order;
    it returns none exactly when no asset has a rank.  With [App-1.0.dmg]
    and [App-1.0.zip] in either order the [.zip] is chosen, and of two
    archives of rank 0 the earlier one. *)
Theorem select_asset_lowest_rank_first :
  forall H : Host,
  (forall assets : list json,
      forallb readable_asset assets = true ->
      exists best : choice,
        select_asset (JArr assets) = Ok best /\
        match best with
        | None => forall a, In a assets -> rank a = None
        | Some (a, r) =>
            exists i : nat,
              nth_error assets i = Some a /\ rank a = Some r /\
              forall (j : nat) (b : json) (r' : Z),
                nth_error assets j = Some b -> rank b = Some r' ->
                r <= r' /\ (r' = r -> (i <= j)%nat)
        end) /\
  (forall (a : json) (name : string),
      asset_name a = Ok name ->
      rank a =
      if PyStr.endswith ".zip" name then Some 0
      else if PyStr.endswith ".dmg" name then Some 1
      else if PyStr.endswith ".pkg" name then Some 2
      else None) /\
  select_asset (JArr [Demo.dmg; Demo.zip]) = Ok (Some (Demo.zip, 0)) /\
  select_asset (JArr [Demo.zip; Demo.dmg]) = Ok (Some (Demo.zip, 0)) /\
  select_asset (JArr [Demo.dmg; Demo.zip; Demo.other_zip]) = Ok (Some (Demo.zip, 0)) /\
  select_asset (JArr [Demo.other_zip; Demo.dmg; Demo.zip]) = Ok (Some (Demo.other_zip, 0)).
Proof.
  intros H. split; [|split; [|repeat split; reflexivity]].
  - intros assets Hall.
    destruct (select_asset_best assets Hall) as [best [Hrun Hbest]].
    exists best. split; [exact Hrun | exact Hbest].
  - intros a name. apply rank_table.
Qed.

Lemma select_asset_lowest_rank_first_witness :
  let H := Demo.host JNull in
  forallb readable_asset [Demo.dmg; Demo.zip; Demo.other_zip] = true /\
  exists best : choice,
    select_asset (JArr [Demo.dmg; Demo.zip; Demo.other_zip]) = Ok best /\
    match best with
    | None => forall a, In a [Demo.dmg; Demo.zip; Demo.other_zip] -> rank a = None
    | Some (a, r) =>
        exists i : nat,
          nth_error [Demo.dmg; Demo.zip; Demo.other_zip] i = Some a /\
          rank a = Some r /\
          forall (j : nat) (b : json) (r' : Z),
            nth_error [Demo.dmg; Demo.zip; Demo.other_zip] j = Some b ->
            rank b = Some r' -> r <= r' /\ (r' = r -> (i <= j)%nat)
    end.
Proof.
  split; [reflexivity|].
  apply (proj1 (select_asset_lowest_rank_first (Demo.host JNull))
           [Demo.dmg; Demo.zip; Demo.other_zip]).
  reflexivity.
Defined.

(** ** The loop over the releases *)

Section Releases.

Context `{Host}.

Lemma get_field (m : list (string * json)) (key : string) :
  Py.get (JObj m) key JNull = Ok (field (JObj m) key).
Proof. unfold field, Py.get. now destruct (Py.lookup key m). Qed.

Lemma get_assets (m : list (string * json)) :
  Py.get (JObj m) "assets" (JArr []) = Ok (assets_of (JObj m)).
Proof. unfold assets_of, Py.get. now destruct (Py.lookup "assets" m). Qed.

Lemma get_size (m : list (string * json)) :
  Py.get (JObj m) "size" (JInt 0) = Ok (size_of (JObj m)).
Proof. unfold size_of, Py.get. now destruct (Py.lookup "size" m). Qed.

Lemma published_timestamp (m : list (string * json)) :
  published (JObj m) = Ok (timestamp_of (JObj m)).
Proof.
  unfold published, timestamp_of, Py.or_. rewrite get_field. cbn [bind].
  destruct (Py.truthy (field (JObj m) "published_at")); [reflexivity|].
  apply get_field.
Qed.

Create Rewrite HintDb release.
#[local] Hint Rewrite get_field get_assets get_size published_timestamp : release.

(** Runs the reads of a dict at the head of the loop body. *)
Ltac read_fields := repeat (progress (autorewrite with release; cbn [bind])).

Lemma version_of_readable (tag : json) :
  text_or_falsy tag = true -> exists v, version_of tag = Ok v.
Proof.
  unfold version_of.
  destruct tag as [|b|n|s|l|m]; cbn [text_or_falsy];
    try (intros Hf; apply negb_true_iff in Hf; rewrite Hf; now eexists).
  intros _. destruct (Py.truthy (JStr s)); now eexists.
Qed.

Lemma pub_date_readable (pub : json) :
  readable_date pub = true -> exists d, pub_date pub = Ok d.
Proof.
  unfold readable_date, pub_date.
  destruct (Py.truthy pub); cbn [negb orb]; [|now eexists].
  destruct (iso_to_rfc2822 pub); [now eexists | discriminate].
Qed.

Lemma asset_name_readable (a : json) :
  readable_asset a = true -> asset_name a = Ok (PyStr.lower (name_text a)).
Proof.
  destruct a as [| | | |l|m]; try discriminate.
  unfold readable_asset, asset_name, name_text. rewrite get_field. cbn [bind].
  unfold Py.or_.
  destruct (field (JObj m) "name") as [|b|n|s|l|m']; cbn [text_or_falsy];
    try (intros Hf; apply negb_true_iff in Hf; rewrite Hf; reflexivity).
  intros _. destruct s; reflexivity.
Qed.

Lemma archive_name_rank (a : json) :
  readable_asset a = true ->
  archive_name a = match rank a with Some _ => true | None => false end.
Proof.
  intros Ha. unfold rank, archive_name. rewrite (asset_name_readable a Ha).
  cbn [first_match ext_priority existsb recognised].
  now destruct (PyStr.endswith ".zip" _), (PyStr.endswith ".dmg" _),
    (PyStr.endswith ".pkg" _).
Qed.

Lemma ranked_truthy (a : json) (r : Z) :
  rank a = Some r -> Py.truthy a = true.
Proof.
  unfold rank, asset_name.
  destruct a as [| | | |l|m]; try discriminate.
  destruct m as [|kv m]; [discriminate | reflexivity].
Qed.

(** The choice is none exactly when no asset has a recognised name. *)
Lemma best_of_qualifies (assets : list json) (best : choice) :
  forallb readable_asset assets = true ->
  best_of assets best ->
  existsb archive_name assets = match best with Some _ => true | None => false end.
Proof.
  intros Hall Hbest. rewrite forallb_forall in Hall.
  destruct best as [[a r]|].
  - destruct Hbest as [i [Hi [Hr _]]]. apply nth_error_In in Hi.
    apply existsb_exists. exists a. split; [exact Hi|].
    rewrite archive_name_rank by now apply Hall. now rewrite Hr.
  - destruct (existsb archive_name assets) eqn:E; [|reflexivity].
    apply existsb_exists in E as [a [Hin Ha]].
    rewrite archive_name_rank in Ha by now apply Hall.
    now rewrite (Hbest a Hin) in Ha.
Qed.

(** What the body of the loop does on a release record. *)
Lemma feed_item_spec (rel : json) :
  well_formed_release rel = true ->
  exists (best : choice) (version date : string),
    select_asset (assets_of rel) = Ok best /\
    best_of (asset_list rel) best /\
    version_of (field rel "tag_name") = Ok version /\
    pub_date (timestamp_of rel) = Ok date /\
    feed_item rel =
    Ok (match best with
        | None => None
        | Some (a, _) => Some (item_of rel a date version)
        end).
Proof.
  destruct rel as [| | | |l|m]; try discriminate.
  unfold well_formed_release.
  intros [[Htag Hdate]%andb_true_iff Hassets]%andb_true_iff.
  destruct (version_of_readable _ Htag) as [version Hversion].
  destruct (pub_date_readable _ Hdate) as [date Hpub].
  unfold asset_list.
  destruct (assets_of (JObj m)) as [| | | |assets|] eqn:Eassets; try discriminate.
  destruct (select_asset_best assets Hassets) as [best [Hrun Hbest]].
  exists best, version, date. repeat (split; [assumption|]).
  unfold feed_item.
  read_fields. rewrite Eassets, Hrun. cbn [bind].
  destruct best as [[a r]|]; [|reflexivity].
  destruct Hbest as [i [Hi [Hr _]]].
  rewrite (ranked_truthy a r Hr). cbn [negb].
  apply nth_error_In in Hi. rewrite forallb_forall in Hassets.
  specialize (Hassets a Hi).
  destruct a as [| | | |l'|ma]; try discriminate.
  read_fields. rewrite Hversion. cbn [bind]. rewrite Hpub. reflexivity.
Qed.

Lemma feed_item_qualifies (rel : json) :
  well_formed_release rel = true ->
  exists x, feed_item rel = Ok x /\
            qualifies rel = match x with Some _ => true | None => false end.
Proof.
  intros Hwf.
  destruct (feed_item_spec rel Hwf) as (best & version & date & _ & Hbest & _ & _ & Hrun).
  eexists. split; [exact Hrun|].
  unfold qualifies. rewrite (best_of_qualifies _ best); [now destruct best as [[a r]|]| |exact Hbest].
  destruct rel as [| | | |l|m]; try discriminate.
  unfold well_formed_release in Hwf. apply andb_true_iff in Hwf as [_ Hassets].
  unfold asset_list. now destruct (assets_of (JObj m)).
Qed.

Lemma collect_qualifying (rels : list json) :
  forallb well_formed_release rels = true ->
  exists items,
    collect rels = Ok items /\
    Forall2 (fun rel it => feed_item rel = Ok (Some it))
            (filter qualifies rels) items.
Proof.
  induction rels as [|rel rels IH]; intros Hall.
  - exists []. split; [reflexivity | constructor].
  - cbn [forallb] in Hall. apply andb_true_iff in Hall as [Hwf Hall].
    destruct (IH Hall) as [items [Hrun Hitems]].
    destruct (feed_item_qualifies rel Hwf) as [x [Hx Hq]].
    cbn [collect filter]. rewrite Hx, Hrun, Hq. cbn [bind].
    destruct x as [it|]; eexists; (split; [reflexivity|]).
    + now constructor.
    + exact Hitems.
Qed.

(** *** The releases on which the body of the loop stops *)

Lemma asset_name_unreadable (a : json) :
  readable_asset a = false -> asset_name a = Raise AttributeError.
Proof.
  destruct a as [| | | |l|m]; try reflexivity.
  unfold readable_asset, asset_name. rewrite get_field. cbn [bind]. unfold Py.or_.
  destruct (field (JObj m) "name") as [|b|n|s|l|m']; cbn [text_or_falsy];
    try discriminate;
    intros Hf; apply negb_false_iff in Hf;
    first [discriminate Hf | rewrite Hf; reflexivity].
Qed.

Lemma consider_readable (best : choice) (a : json) :
  readable_asset a = true -> exists best', consider best a = Ok best'.
Proof.
  intros Ha. unfold consider. rewrite (asset_name_readable a Ha). cbn [bind].
  destruct (first_match _ ext_priority) as [prio|]; [|now eexists].
  destruct best as [[p r]|]; [|now eexists].
  destruct (prio <? r); now eexists.
Qed.

Lemma select_from_unreadable (assets : list json) (best : choice) :
  forallb readable_asset assets = false -> raises (select_from best assets).
Proof.
  revert best. induction assets as [|a assets IH]; intros best; [discriminate|].
  cbn [forallb select_from]. destruct (readable_asset a) eqn:Ha; cbn [andb].
  - intros Hrest. destruct (consider_readable best a Ha) as [best' ->].
    cbn [bind]. now apply IH.
  - intros _. unfold consider. rewrite (asset_name_unreadable a Ha).
    now exists AttributeError.
Qed.

Lemma select_asset_unreadable (v : json) :
  readable_assets v = false -> raises (select_asset v).
Proof.
  unfold select_asset.
  destruct v as [|b|n|s|l|m]; cbn [readable_assets Py.iterate bind].
  - intros _. now exists TypeError.
  - intros _. now exists TypeError.
  - intros _. now exists TypeError.
  - destruct s; [discriminate|]. intros _. now exists AttributeError.
  - apply select_from_unreadable.
  - destruct m as [|[k v] m]; [discriminate|]. intros _. now exists AttributeError.
Qed.

Lemma version_of_unreadable (tag : json) :
  text_or_falsy tag = false -> version_of tag = Raise AttributeError.
Proof.
  unfold version_of.
  destruct tag as [|b|n|s|l|m]; cbn [text_or_falsy]; try discriminate;
    intros Hf; apply negb_false_iff in Hf;
    first [discriminate Hf | rewrite Hf; reflexivity].
Qed.

Lemma pub_date_unreadable (pub : json) :
  readable_date pub = false -> raises (pub_date pub).
Proof.
  unfold readable_date, pub_date.
  destruct (Py.truthy pub); cbn [negb orb]; [|discriminate].
  destruct (iso_to_rfc2822 pub) as [d|e]; [discriminate|].
  intros _. now exists e.
Qed.

(** The body of the loop where it runs. *)
Lemma feed_item_runs (rel : json) :
  loop_runs rel = true ->
  exists x, feed_item rel = Ok x /\
            qualifies rel = match x with Some _ => true | None => false end.
Proof.
  destruct rel as [| | | |l|m]; try discriminate.
  unfold loop_runs. intros [Hassets Hrest]%andb_true_iff.
  unfold qualifies, asset_list in *.
  unfold feed_item. read_fields.
  destruct (assets_of (JObj m)) as [|b|n|s|assets|ma] eqn:Eassets;
    try discriminate.
  - destruct s; [|discriminate]. exists None. split; reflexivity.
  - cbn [readable_assets] in Hassets.
    destruct (select_asset_best assets Hassets) as [best [Hrun Hbest]].
    rewrite Hrun. cbn [bind].
    rewrite (best_of_qualifies assets best Hassets Hbest) in *.
    destruct best as [[a r]|]; [|exists None; now split].
    cbn [negb orb] in Hrest. apply andb_true_iff in Hrest as [Htag Hdate].
    destruct (version_of_readable _ Htag) as [version Hversion].
    destruct (pub_date_readable _ Hdate) as [date Hpub].
    destruct Hbest as [i [Hi [Hr _]]].
    rewrite (ranked_truthy a r Hr). cbn [negb].
    apply nth_error_In in Hi. rewrite forallb_forall in Hassets.
    specialize (Hassets a Hi).
    destruct a as [| | | |l'|ma]; try discriminate.
    read_fields. rewrite Hversion. cbn [bind]. rewrite Hpub. cbn [bind].
    eexists. split; reflexivity.
  - destruct ma; [|discriminate]. exists None. split; reflexivity.
Qed.

(** And where it stops. *)
Lemma feed_item_stops (rel : json) :
  loop_runs rel = false -> raises (feed_item rel).
Proof.
  destruct rel as [| | | |l|m]; try (intros _; now exists AttributeError).
  unfold loop_runs. intros Hno.
  unfold feed_item. read_fields.
  destruct (readable_assets (assets_of (JObj m))) eqn:Hassets.
  - cbn [andb] in Hno. apply orb_false_iff in Hno as [Hq Hrest].
    apply negb_false_iff in Hq.
    unfold qualifies, asset_list in Hq.
    destruct (assets_of (JObj m)) as [|b|n|s|assets|ma] eqn:Eassets;
      cbn [existsb] in Hq; try discriminate.
    cbn [readable_assets] in Hassets.
    destruct (select_asset_best assets Hassets) as [best [Hrun Hbest]].
    rewrite Hrun. cbn [bind].
    rewrite (best_of_qualifies assets best Hassets Hbest) in Hq.
    destruct best as [[a r]|]; [|discriminate].
    destruct Hbest as [i [Hi [Hr _]]].
    rewrite (ranked_truthy a r Hr). cbn [negb].
    apply nth_error_In in Hi. rewrite forallb_forall in Hassets.
    specialize (Hassets a Hi).
    destruct a as [| | | |l'|ma]; try discriminate.
    read_fields.
    destruct (text_or_falsy (field (JObj m) "tag_name")) eqn:Htag.
    + cbn [andb] in Hrest.
      destruct (version_of_readable _ Htag) as [version ->]. cbn [bind].
      destruct (pub_date_unreadable _ Hrest) as [e ->]. now exists e.
    + rewrite (version_of_unreadable _ Htag). now exists AttributeError.
  - destruct (select_asset_unreadable _ Hassets) as [e ->]. now exists e.
Qed.

Lemma feed_item_runs_iff (rel : json) :
  loop_runs rel = true <-> exists x, feed_item rel = Ok x.
Proof.
  split.
  - intros Hr. destruct (feed_item_runs rel Hr) as [x [Hx _]]. now exists x.
  - intros [x Hx]. destruct (loop_runs rel) eqn:E; [reflexivity|].
    destruct (feed_item_stops rel E) as [e He]. congruence.
Qed.

Lemma collect_runs (rels : list json) :
  forallb loop_runs rels = true ->
  exists items,
    collect rels = Ok items /\
    Forall2 (fun rel it => feed_item rel = Ok (Some it))
            (filter qualifies rels) items.
Proof.
  induction rels as [|rel rels IH]; intros Hall.
  - exists []. split; [reflexivity | constructor].
  - cbn [forallb] in Hall. apply andb_true_iff in Hall as [Hwf Hall].
    destruct (IH Hall) as [items [Hrun Hitems]].
    destruct (feed_item_runs rel Hwf) as [x [Hx Hq]].
    cbn [collect filter]. rewrite Hx, Hrun, Hq. cbn [bind].
    destruct x as [it|]; eexists; (split; [reflexivity|]).
    + now constructor.
    + exact Hitems.
Qed.

Lemma collect_runs_iff (rels : list json) :
  forallb loop_runs rels = true <-> exists items, collect rels = Ok items.
Proof.
  split.
  - intros Hall. destruct (collect_runs rels Hall) as [items [Hrun _]].
    now exists items.
  - induction rels as [|rel rels IH]; [reflexivity|].
    cbn [collect forallb]. intros [items Hrun].
    destruct (feed_item rel) as [x|e] eqn:Hx; [|discriminate].
    cbn [bind] in Hrun.
    destruct (collect rels) as [its|e] eqn:Hc; [|discriminate].
    rewrite (proj2 (feed_item_runs_iff rel) (ex_intro _ x Hx)).
    cbn [andb]. apply IH. now exists its.
Qed.

End Releases.

(** Two releases, the first with a [.zip] and the tag [v1.0.0], the
    second with a [.txt] only: one item, for the first. *)
Example one_item_of_two (H : Host) :
  appcast "o/r" Demo.two_releases =
  Ok (PyStr.join PyStr.newline
        (preamble "o/r" ++
         [ "<item>";
           "<title>First</title>";
           "<sparkle:releaseNotesLink>https://github.com/o/r/releases/tag/v1.0.0</sparkle:releaseNotesLink>";
           "<pubDate>Mon, 05 Feb 2024 12:34:56 +0000</pubDate>";
           enclosure "https://example.com/App-1.0.0.zip" "1.0.0" "1024";
           "</item>" ] ++
         ["</channel>"; "</rss>"])%list).
Proof. vm_compute. reflexivity. Qed.

(** ** The case of the letters of a name *)

Section Letters.

Lemma same_letter_lower_char (c : ascii) :
  same_letter c (PyStr.lower_char c) = true.
Proof. destruct c as [[] [] [] [] [] [] [] []]; reflexivity. Qed.

(** A character that differs from a lower-case one by its case at most
    is lowered to it. *)
Lemma same_letter_lowered (c d : ascii) :
  same_letter c d = true -> PyStr.lower_char d = d -> PyStr.lower_char c = d.
Proof.
  unfold same_letter. intros [E|E]%orb_true_iff Hd.
  - apply Ascii.eqb_eq in E. now subst.
  - cbn [existsb letters fst snd] in E. rewrite !orb_true_iff in E.
    repeat destruct E as [E|E]; try discriminate E;
      apply andb_true_iff in E as [E1 E2];
      apply Ascii.eqb_eq in E1, E2; subst c d;
      first [reflexivity | discriminate Hd].
Qed.

Lemma caseless_lower_ascii (s : string) :
  caseless s (PyStr.lower_ascii s) = true.
Proof.
  induction s as [|c s IH]; [reflexivity|].
  cbn [PyStr.lower_ascii caseless]. now rewrite same_letter_lower_char, IH.
Qed.

Lemma caseless_lowered (tail ext : string) :
  caseless tail ext = true ->
  PyStr.lower_ascii ext = ext -> PyStr.lower_ascii tail = ext.
Proof.
  revert ext. induction tail as [|c tail IH]; intros [|d ext];
    cbn [caseless PyStr.lower_ascii]; try discriminate; [reflexivity|].
  intros [Hc Ht]%andb_true_iff [= Hd He].
  now rewrite (same_letter_lowered c d Hc Hd), (IH ext Ht He).
Qed.

Lemma lower_ascii_app (a b : string) :
  PyStr.lower_ascii (a ++ b) = PyStr.lower_ascii a ++ PyStr.lower_ascii b.
Proof.
  induction a as [|c a IH]; [reflexivity|].
  cbn [String.append PyStr.lower_ascii]. now rewrite IH.
Qed.

Lemma lower_ascii_split (s p e : string) :
  PyStr.lower_ascii s = p ++ e ->
  exists a b, s = a ++ b /\ PyStr.lower_ascii a = p /\ PyStr.lower_ascii b = e.
Proof.
  revert s. induction p as [|c p IH]; intros s Hs.
  - exists EmptyString, s. now repeat split.
  - destruct s as [|c0 s]; [discriminate|].
    cbn [String.append PyStr.lower_ascii] in Hs. injection Hs as Hc Hs.
    destruct (IH s Hs) as (a & b & -> & Ha & Hb).
    exists (String c0 a), b. repeat split; [|exact Hb].
    cbn [PyStr.lower_ascii]. now rewrite Hc, Ha.
Qed.

Lemma recognised_lower (ext : string) :
  In ext recognised -> PyStr.lower_ascii ext = ext.
Proof. intros [<-|[<-|[<-|[]]]]; reflexivity. Qed.

(** The lowered name ends with an extension of the table exactly when the
    name ends with it up to the case of its letters. *)
Lemma endswith_lower_caseless `{PyStr.Unicode} (name ext : string) :
  PyStr.is_ascii name = true ->
  In ext recognised ->
  (PyStr.endswith ext (PyStr.lower name) = true <->
   exists stem tail, name = stem ++ tail /\ caseless tail ext = true).
Proof.
  intros Hascii Hext. unfold PyStr.lower. rewrite Hascii, endswith_iff. split.
  - intros [p Hp]. destruct (lower_ascii_split name p ext Hp) as (a & b & -> & _ & Hb).
    exists a, b. split; [reflexivity|]. rewrite <- Hb. apply caseless_lower_ascii.
  - intros (stem & tail & -> & Hc). exists (PyStr.lower_ascii stem).
    rewrite lower_ascii_app. f_equal.
    apply caseless_lowered; [exact Hc | now apply recognised_lower].
Qed.

End Letters.

(** C5, as the specification words it, fails: the release
    [Demo.undated] has the asset [App-1.0.zip], and the text [yesterday]
    as [published_at].  On every host the normalizer raises ValueError on
    it: the body of the loop appends no item, and the loop over an array
    that holds this release ends with the exception. *)
Lemma archive_release_without_item :
  (exists a, In a (asset_list Demo.undated) /\
             name_text a = "App-1.0.zip" /\
             PyStr.endswith ".zip" (name_text a) = true) /\
  (forall H : Host,
      qualifies Demo.undated = true /\
      feed_item Demo.undated = Raise ValueError /\
      build_items (JArr [Demo.undated]) = Raise ValueError /\
      build_items (JArr (Demo.releases ++ [Demo.undated])) = Raise ValueError).
Proof.
  split.
  - exists Demo.zip. repeat split. now left.
  - intros H. repeat split.
Qed.

(** C5, amended: over an array of releases on each of which the body of
    the loop runs to its end, the items built are, in order, one for each
    release that has an asset whose name ends, in any case of letters, in
    [.zip], [.dmg] or [.pkg], and none for the others: the body of the loop
    appends exactly one item for such a release and nothing for a release
    with no such asset, in particular when its asset list is empty or
    absent.  The body of the loop runs to its end exactly on a dict whose
    assets are a list of asset records (or an empty dict or text) and,
    when one of them is an archive, whose tag is a text or fails [if tag]
    and whose timestamp is missing or readable; on every other release it
    raises, and so does the loop.  For an ASCII name, ending in an
    extension after [lower()] is ending in it up to the case of the
    letters. *)
Theorem one_item_per_qualifying_release :
  forall (H : Host) (rels : list json),
    forallb loop_runs rels = true ->
    (exists items : list Item.t,
        build_items (JArr rels) = Ok items /\
        Forall2 (fun rel it => feed_item rel = Ok (Some it))
                (filter qualifies rels) items /\
        List.length items = List.length (filter qualifies rels)) /\
    (forall rel : json,
        In rel rels ->
        (qualifies rel = true -> exists it, feed_item rel = Ok (Some it)) /\
        (qualifies rel = false -> feed_item rel = Ok None) /\
        (asset_list rel = [] -> feed_item rel = Ok None)) /\
    (forall rel : json,
        (loop_runs rel = true <-> exists x, feed_item rel = Ok x) /\
        (loop_runs rel = false <-> raises (feed_item rel))) /\
    (forall rels' : list json,
        forallb loop_runs rels' = true <->
        exists items, build_items (JArr rels') = Ok items) /\
    (forall rel : json,
        qualifies rel = true <->
        exists (a : json) (ext : string),
          In a (asset_list rel) /\ In ext recognised /\
          PyStr.endswith ext (PyStr.lower (name_text a)) = true) /\
    (forall name ext : string,
        PyStr.is_ascii name = true ->
        In ext recognised ->
        (PyStr.endswith ext (PyStr.lower name) = true <->
         exists stem tail, name = stem ++ tail /\ caseless tail ext = true)) /\
    (forall m, Py.lookup "assets" m = None -> asset_list (JObj m) = []).
Proof.
  intros H rels Hall. repeat apply conj.
  - destruct (collect_runs rels Hall) as [items [Hrun Hitems]].
    exists items. split; [exact Hrun|]. split; [exact Hitems|].
    symmetry. eapply Forall2_length. exact Hitems.
  - intros rel Hin. rewrite forallb_forall in Hall.
    destruct (feed_item_runs rel (Hall rel Hin)) as [x [Hx Hq]].
    rewrite Hx. split; [|split].
    + intros Ht. rewrite Ht in Hq. destruct x; [now eexists | discriminate].
    + intros Hf. rewrite Hf in Hq. now destruct x.
    + intros Hnil. unfold qualifies in Hq. rewrite Hnil in Hq. now destruct x.
  - intros rel. split; [apply feed_item_runs_iff|]. split.
    + apply feed_item_stops.
    + intros [e He]. destruct (loop_runs rel) eqn:E; [|reflexivity].
      destruct (feed_item_runs rel E) as [x [Hx _]]. congruence.
  - intros rels'. unfold build_items. cbn [Py.iterate bind].
    apply collect_runs_iff.
  - intros rel. unfold qualifies, archive_name. rewrite existsb_exists. split.
    + intros [a [Ha [ext [Hext Hs]]%existsb_exists]]. now exists a, ext.
    + intros (a & ext & Ha & Hext & Hs). exists a. split; [exact Ha|].
      apply existsb_exists. now exists ext.
  - intros name ext. apply endswith_lower_caseless.
  - intros m Hm. unfold asset_list, assets_of, Py.get. now rewrite Hm.
Qed.

Lemma one_item_per_qualifying_release_witness :
  let H := Demo.host JNull in
  forallb loop_runs Demo.mixed = true /\
  forallb well_formed_release Demo.mixed = false /\
  (exists items : list Item.t,
      build_items (JArr Demo.mixed) = Ok items /\
      List.length items = 3%nat) /\
  PyStr.is_ascii "App-2.0.PKG" = true /\
  caseless ".PKG" ".pkg" = true /\
  PyStr.endswith ".pkg" (PyStr.lower "App-2.0.PKG") = true.
Proof.
  intros H.
  destruct (one_item_per_qualifying_release H Demo.mixed eq_refl)
    as (Hitems & _ & _ & _ & _ & Hcase & _).
  split; [reflexivity|]. split; [reflexivity|]. split.
  - destruct Hitems as (items & Hrun & _ & Hlen).
    exists items. split; [exact Hrun | exact Hlen].
  - split; [reflexivity|]. split; [reflexivity|].
    apply (Hcase "App-2.0.PKG" ".pkg" eq_refl).
    + right. right. now left.
    + exists "App-2.0", ".PKG". split; reflexivity.
Defined.

(** ** The date normalizer *)

Section Normalizer.

Context `{Host}.

Lemma iso_to_rfc2822_falsy (v : json) :
  Py.truthy v = false -> raises (iso_to_rfc2822 v).
Proof.
  destruct v as [|b|n|s|l|m]; try (intros _; now eexists).
  destruct s; [intros _; now eexists | discriminate].
Qed.

(** A property checked on every number below [b] holds of them all. *)
Lemma below (b : nat) (P : Z -> bool) :
  forallb P (map Z.of_nat (seq 0 b)) = true ->
  forall n : Z, 0 <= n < Z.of_nat b -> P n = true.
Proof.
  intros Hall n Hn. rewrite forallb_forall in Hall. apply Hall.
  apply in_map_iff. exists (Z.to_nat n). split; [lia|].
  apply in_seq. lia.
Qed.

Lemma pad2_two (n : Z) : 0 <= n < 100 -> Datetime.pad2 n = two n.
Proof.
  intros Hn. apply String.eqb_eq.
  apply (below 100 (fun k => String.eqb (Datetime.pad2 k) (two k)));
    [vm_compute; reflexivity | exact Hn].
Qed.

Lemma num2_two (n : Z) :
  0 <= n < 100 ->
  Datetime.num2 (digit_char (n / 10)) (digit_char (n mod 10)) = Some n.
Proof.
  intros Hn.
  pose proof (below 100
                (fun k => match Datetime.num2 (digit_char (k / 10))
                                              (digit_char (k mod 10)) with
                          | Some x => x =? k
                          | None => false
                          end) ltac:(vm_compute; reflexivity) n Hn) as Hb.
  cbv beta in Hb.
  destruct (Datetime.num2 _ _) as [x|]; [|discriminate].
  apply Z.eqb_eq in Hb. now subst.
Qed.

Lemma digit_not_Z (c : ascii) (k : Z) :
  Datetime.digit c = Some k -> Ascii.eqb c "Z" = false.
Proof.
  intros Hc. destruct (Ascii.eqb_spec c "Z") as [->|_]; [discriminate | reflexivity].
Qed.

Lemma num2_not_Z (a b : ascii) (n : Z) :
  Datetime.num2 a b = Some n ->
  Ascii.eqb a "Z" = false /\ Ascii.eqb b "Z" = false.
Proof.
  unfold Datetime.num2.
  destruct (Datetime.digit a) as [x|] eqn:Ha; [|discriminate].
  destruct (Datetime.digit b) as [y|] eqn:Hb; [|discriminate].
  intros _. split; eapply digit_not_Z; eassumption.
Qed.

(** Reading [YYYY-MM-DDTHH:MM:SSZ], the digits given pair by pair. *)
Lemma read_zulu (a1 a2 a3 a4 b1 b2 c1 c2 e1 e2 f1 f2 g1 g2 : ascii)
    (yh yl m d h mi s : Z) :
  Datetime.num2 a1 a2 = Some yh -> Datetime.num2 a3 a4 = Some yl ->
  Datetime.num2 b1 b2 = Some m -> Datetime.num2 c1 c2 = Some d ->
  Datetime.num2 e1 e2 = Some h -> Datetime.num2 f1 f2 = Some mi ->
  Datetime.num2 g1 g2 = Some s ->
  Datetime.valid_date (100 * yh + yl) m d = true ->
  Datetime.valid_time h mi s = true ->
  Datetime.fromisoformat
    (PyStr.replace "Z" "+00:00"
       (String a1 (String a2 (String a3 (String a4 (String "-"
       (String b1 (String b2 (String "-" (String c1 (String c2 (String "T"
       (String e1 (String e2 (String ":" (String f1 (String f2 (String ":"
       (String g1 (String g2 "Z")))))))))))))))))))) =
  Ok (Datetime.mk_datetime (100 * yh + yl) m d h mi s 0 (Some 0)).
Proof.
  intros Ha12 Ha34 Hb Hc He Hf Hg Hdate Htime.
  destruct (num2_not_Z _ _ _ Ha12) as [Z1 Z2].
  destruct (num2_not_Z _ _ _ Ha34) as [Z3 Z4].
  destruct (num2_not_Z _ _ _ Hb) as [Z5 Z6].
  destruct (num2_not_Z _ _ _ Hc) as [Z7 Z8].
  destruct (num2_not_Z _ _ _ He) as [Z9 Z10].
  destruct (num2_not_Z _ _ _ Hf) as [Z11 Z12].
  destruct (num2_not_Z _ _ _ Hg) as [Z13 Z14].
  rewrite replace_char. cbn [Xml.expand].
  rewrite Z1, Z2, Z3, Z4, Z5, Z6, Z7, Z8, Z9, Z10, Z11, Z12, Z13, Z14.
  cbn [Ascii.eqb Bool.eqb String.append].
  unfold Datetime.fromisoformat, Datetime.common, Datetime.parse_date,
    Datetime.num4.
  rewrite Ha12, Ha34, Hb, Hc, Hdate.
  cbn [N_of_ascii N.ltb N.compare Pos.compare Pos.compare_cont].
  unfold Datetime.parse_time. cbn [Datetime.parse_two]. rewrite He.
  cbn [Datetime.parse_colon_two Datetime.parse_two]. rewrite Hf.
  cbn [Datetime.parse_colon_two Datetime.parse_two]. rewrite Hg.
  cbn [Datetime.parse_fraction]. rewrite Htime. reflexivity.
Qed.

Lemma weekday_date (y m d h mi s us : Z) (off : option Z) :
  Datetime.weekday (Datetime.mk_datetime y m d h mi s us off) = weekday_of y m d.
Proof. reflexivity. Qed.

Lemma days_in_month_bound (y m : Z) : 28 <= Datetime.days_in_month y m <= 31.
Proof.
  unfold Datetime.days_in_month.
  destruct (m =? 2); [destruct (Datetime.is_leap y); lia|].
  destruct (_ || _)%bool; lia.
Qed.

Lemma valid_date_bounds (y m d : Z) :
  Datetime.valid_date y m d = true ->
  1 <= y <= 9999 /\ 1 <= m <= 12 /\ 1 <= d <= Datetime.days_in_month y m.
Proof.
  unfold Datetime.valid_date. rewrite !andb_true_iff, !Z.leb_le. tauto.
Qed.

(** What the normalizer makes of a timestamp GitHub sends. *)
Lemma iso_to_rfc2822_zulu (y m d h mi s : Z) :
  Datetime.valid_date y m d = true -> 1000 <= y ->
  0 <= h <= 23 -> 0 <= mi <= 59 -> 0 <= s <= 59 ->
  iso_to_rfc2822 (JStr (zulu y m d h mi s)) = Ok (rfc2822_utc y m d h mi s).
Proof.
  intros Hdate Hy1000 Hh Hmi Hs.
  destruct (valid_date_bounds y m d Hdate) as (Hy & Hm & Hd).
  pose proof (days_in_month_bound y m) as Hdim.
  unfold iso_to_rfc2822, Py.replace. cbn [Py.as_str bind].
  unfold zulu, four, two. cbn [String.append].
  rewrite (read_zulu _ _ _ _ _ _ _ _ _ _ _ _ _ _
             (y / 100) (y mod 100) m d h mi s).
  - cbn [bind]. unfold Datetime.strftime, rfc2822_utc.
    cbn [Datetime.day Datetime.month Datetime.year Datetime.hour
         Datetime.minute Datetime.second Datetime.utcoffset].
    rewrite weekday_date, !pad2_two by lia.
    replace (100 * (y / 100) + y mod 100) with y
      by (rewrite (Z.div_mod y 100) at 1; lia).
    unfold Datetime.format_year.
    now rewrite (proj2 (Z.ltb_ge y 1000) Hy1000).
  - apply num2_two. split; [apply Z.div_pos; lia | apply Z.div_lt_upper_bound; lia].
  - apply num2_two. apply Z.mod_pos_bound. lia.
  - apply num2_two. lia.
  - apply num2_two. lia.
  - apply num2_two. lia.
  - apply num2_two. lia.
  - apply num2_two. lia.
  - replace (100 * (y / 100) + y mod 100) with y
      by (rewrite (Z.div_mod y 100) at 1; lia).
    exact Hdate.
  - unfold Datetime.valid_time. rewrite !andb_true_iff, !Z.leb_le. lia.
Qed.

Lemma months_before_next (y m : Z) :
  1 <= m ->
  Datetime.days_before_month y (m + 1) =
  Datetime.days_before_month y m + Datetime.days_in_month y m.
Proof.
  intros Hm. unfold Datetime.days_before_month.
  replace (Z.to_nat (m + 1 - 1)) with (S (Z.to_nat (m - 1))) by lia.
  cbn [Datetime.days_before_month_from].
  now replace (Z.of_nat (S (Z.to_nat (m - 1)))) with m by lia.
Qed.

Lemma year_length (y : Z) :
  Datetime.days_before_year (y + 1) =
  Datetime.days_before_year y + Datetime.days_before_month y 12 + 31.
Proof.
  unfold Datetime.days_before_month.
  change (Z.to_nat (12 - 1)) with 11%nat.
  cbn [Datetime.days_before_month_from]. unfold Datetime.days_in_month.
  cbn [Z.of_nat Pos.of_succ_nat Pos.succ Z.eqb Pos.eqb orb].
  unfold Datetime.days_before_year, Datetime.is_leap.
  replace (y + 1 - 1) with y by lia.
  destruct (Z.eqb_spec (y mod 4) 0), (Z.eqb_spec (y mod 100) 0),
    (Z.eqb_spec (y mod 400) 0); cbn [andb orb negb];
    Z.div_mod_to_equations; lia.
Qed.

(** The day after a date is the next day of the week. *)
Lemma weekday_tomorrow (y m d y' m' d' : Z) :
  Datetime.valid_date y m d = true ->
  tomorrow y m d = (y', m', d') ->
  weekday_of y' m' d' = (weekday_of y m d + 1) mod 7.
Proof.
  intros Hdate Hnext.
  destruct (valid_date_bounds y m d Hdate) as (Hy & Hm & Hd).
  assert (Hord : Datetime.days_before_year y' + Datetime.days_before_month y' m' + d' =
                 Datetime.days_before_year y + Datetime.days_before_month y m + d + 1).
  { unfold tomorrow in Hnext.
    destruct (Z.ltb_spec d (Datetime.days_in_month y m)) as [Hlt|Hge].
    - injection Hnext as <- <- <-. lia.
    - destruct (Z.ltb_spec m 12) as [Hm12|Hm12]; injection Hnext as <- <- <-.
      + rewrite months_before_next by lia. lia.
      + assert (m = 12) by lia. subst m.
        assert (Hdim : Datetime.days_in_month y 12 = 31) by reflexivity.
        rewrite year_length.
        change (Datetime.days_before_month (y + 1) 1) with 0. lia. }
  unfold weekday_of, Datetime.weekday, Datetime.toordinal.
  cbn [Datetime.year Datetime.month Datetime.day]. rewrite Hord.
  replace (Datetime.days_before_year y + Datetime.days_before_month y m + d + 1 + 6)
    with ((Datetime.days_before_year y + Datetime.days_before_month y m + d + 6) + 1)
    by lia.
  now rewrite Z.add_mod_idemp_l by lia.
Qed.

End Normalizer.

Example zulu_sample : zulu 2024 2 5 12 34 56 = "2024-02-05T12:34:56Z".
Proof. reflexivity. Qed.

Example rfc2822_sample :
  rfc2822_utc 2024 2 5 12 34 56 = "Mon, 05 Feb 2024 12:34:56 +0000".
Proof. vm_compute. reflexivity. Qed.

Lemma loop_runs_well_formed (H : Host) (rel : json) :
  loop_runs rel = true -> qualifies rel = true ->
  well_formed_release rel = true.
Proof.
  destruct rel as [| | | |l|m]; try discriminate.
  unfold loop_runs, well_formed_release, qualifies, asset_list.
  destruct (assets_of (JObj m)) as [|b|n|s|assets|ma];
    cbn [readable_assets existsb]; intros Hrun Hq; try discriminate Hq.
  rewrite Hq in Hrun. cbn [negb orb] in Hrun.
  apply andb_true_iff in Hrun as [Hassets Hrest].
  now rewrite Hrest, Hassets.
Qed.

(** C6: the normalizer replaces [Z] by [+00:00], parses the text and
    prints it in the RFC 2822 manner.  For every date of the calendar
    from the year 1000 on and every time of day, of
    [YYYY-MM-DDTHH:MM:SSZ] it makes [Day, DD Mon YYYY HH:MM:SS +0000];
    the day of the week advances by one from each date to the next, and
    is the one the calendar gives on dates of every weekday and month:
    of [2024-02-05T12:34:56Z] the normalizer makes
    [Mon, 05 Feb 2024 12:34:56 +0000].  Fractions of a second are read
    and not printed, an offset other than [Z] is printed as it is, and a
    text with no offset gets none.  For a release with neither
    [published_at] nor [created_at], the normalizer is not called, for on
    the absent timestamp it raises; every item built for such a release
    has the empty string as its date, and an item is built when the
    release has an archive and the body of the loop runs to its end. *)
Theorem date_normalizer :
  forall H : Host,
    (forall y m d h mi s : Z,
        Datetime.valid_date y m d = true -> 1000 <= y ->
        0 <= h <= 23 -> 0 <= mi <= 59 -> 0 <= s <= 59 ->
        iso_to_rfc2822 (JStr (zulu y m d h mi s)) =
        Ok (rfc2822_utc y m d h mi s)) /\
    (forall y m d y' m' d' : Z,
        Datetime.valid_date y m d = true ->
        tomorrow y m d = (y', m', d') ->
        weekday_of y' m' d' = (weekday_of y m d + 1) mod 7) /\
    iso_to_rfc2822 (JStr "2024-02-05T12:34:56Z") =
      Ok "Mon, 05 Feb 2024 12:34:56 +0000" /\
    Forall (fun p => iso_to_rfc2822 (JStr (fst p)) = Ok (snd p))
      [ ("2000-02-29T23:59:59Z", "Tue, 29 Feb 2000 23:59:59 +0000");
        ("2023-03-01T00:00:00Z", "Wed, 01 Mar 2023 00:00:00 +0000");
        ("1970-01-01T00:00:00Z", "Thu, 01 Jan 1970 00:00:00 +0000");
        ("2100-12-31T08:09:10Z", "Fri, 31 Dec 2100 08:09:10 +0000");
        ("2022-04-09T06:07:08Z", "Sat, 09 Apr 2022 06:07:08 +0000");
        ("2019-05-26T00:00:01Z", "Sun, 26 May 2019 00:00:01 +0000");
        ("2020-06-30T23:00:00Z", "Tue, 30 Jun 2020 23:00:00 +0000");
        ("2018-07-04T04:05:06Z", "Wed, 04 Jul 2018 04:05:06 +0000");
        ("2017-08-17T17:18:19Z", "Thu, 17 Aug 2017 17:18:19 +0000");
        ("2016-09-12T09:10:11Z", "Mon, 12 Sep 2016 09:10:11 +0000");
        ("2015-10-21T07:28:00Z", "Wed, 21 Oct 2015 07:28:00 +0000");
        ("2014-11-05T21:22:23Z", "Wed, 05 Nov 2014 21:22:23 +0000");
        ("1000-01-01T00:00:00Z", "Wed, 01 Jan 1000 00:00:00 +0000");
        ("9999-12-31T23:59:59Z", "Fri, 31 Dec 9999 23:59:59 +0000");
        ("2024-02-05T12:34:56.789Z", "Mon, 05 Feb 2024 12:34:56 +0000");
        ("2024-02-05T12:34:56.789012Z", "Mon, 05 Feb 2024 12:34:56 +0000");
        ("2024-02-05T12:34Z", "Mon, 05 Feb 2024 12:34:00 +0000");
        ("2024-02-05 12:34:56Z", "Mon, 05 Feb 2024 12:34:56 +0000");
        ("2024-02-05T12:34:56+05:30", "Mon, 05 Feb 2024 12:34:56 +0530");
        ("2024-02-05T12:34:56-08:00", "Mon, 05 Feb 2024 12:34:56 -0800");
        ("2024-02-05", "Mon, 05 Feb 2024 00:00:00 ") ] /\
    (forall rel : json,
        Py.truthy (field rel "published_at") = false ->
        Py.truthy (field rel "created_at") = false ->
        raises (iso_to_rfc2822 (timestamp_of rel)) /\
        (forall it, feed_item rel = Ok (Some it) -> Item.pubDate it = "") /\
        (loop_runs rel = true -> qualifies rel = true ->
         exists it, feed_item rel = Ok (Some it) /\ Item.pubDate it = "")).
Proof.
  intros H.
  split; [apply iso_to_rfc2822_zulu|].
  split; [apply weekday_tomorrow|].
  split; [vm_compute; reflexivity|].
  split; [repeat constructor|].
  intros rel Hp Hc.
  assert (Hfalsy : Py.truthy (timestamp_of rel) = false)
    by (unfold timestamp_of, Py.or_; now rewrite Hp).
  split; [now apply iso_to_rfc2822_falsy|].
  assert (Hbuilt : forall it, feed_item rel = Ok (Some it) -> Item.pubDate it = "").
  { intros it Hit.
    assert (Hrun : loop_runs rel = true)
      by (apply feed_item_runs_iff; now exists (Some it)).
    destruct (feed_item_runs rel Hrun) as [x [Hx Hq]].
    rewrite Hit in Hx. injection Hx as <-.
    destruct (feed_item_spec rel (loop_runs_well_formed H rel Hrun Hq))
      as (best & version & date & _ & _ & _ & Hdate & Hitem).
    rewrite Hit in Hitem. destruct best as [[a r]|]; [|discriminate Hitem].
    injection Hitem as ->. cbn [item_of Item.pubDate].
    unfold pub_date in Hdate. rewrite Hfalsy in Hdate. now injection Hdate as <-. }
  split; [exact Hbuilt|].
  intros Hrun Hq. destruct (feed_item_runs rel Hrun) as [x [Hx Hqx]].
  rewrite Hq in Hqx. destruct x as [it|]; [|discriminate Hqx].
  exists it. split; [exact Hx | now apply Hbuilt].
Qed.

Lemma date_normalizer_witness :
  let H := Demo.host JNull in
  Datetime.valid_date 2024 2 29 = true /\
  iso_to_rfc2822 (JStr (zulu 2024 2 29 23 59 58)) =
    Ok (rfc2822_utc 2024 2 29 23 59 58) /\
  zulu 2024 2 29 23 59 58 = "2024-02-29T23:59:58Z" /\
  rfc2822_utc 2024 2 29 23 59 58 = "Thu, 29 Feb 2024 23:59:58 +0000" /\
  tomorrow 2024 2 29 = (2024, 3, 1) /\
  weekday_of 2024 3 1 = (weekday_of 2024 2 29 + 1) mod 7 /\
  loop_runs Demo.bare_release = true /\
  qualifies Demo.bare_release = true /\
  Py.truthy (field Demo.bare_release "published_at") = false /\
  Py.truthy (field Demo.bare_release "created_at") = false /\
  (exists it, feed_item Demo.bare_release = Ok (Some it) /\
              Item.pubDate it = "") /\
  raises (iso_to_rfc2822 (timestamp_of Demo.bare_release)).
Proof.
  intros H.
  destruct (date_normalizer H) as (Hzulu & Hnext & _ & _ & Hnone).
  destruct (Hnone Demo.bare_release eq_refl eq_refl) as (Hraises & _ & Hitem).
  split; [reflexivity|].
  split; [apply Hzulu; [reflexivity | lia | lia | lia | lia]|].
  split; [reflexivity|].
  split; [vm_compute; reflexivity|].
  split; [reflexivity|].
  split; [apply (Hnext 2024 2 29); reflexivity|].
  repeat (split; [reflexivity|]).
  split; [apply Hitem; reflexivity | exact Hraises].
Defined.

(** C10: when the asset chosen for a release has no [size] field, the
    length of the item is the text [0]; in every case it is [str] of the
    size read with 0 as the default. *)
Theorem missing_size_gives_zero_length :
  forall (H : Host) (rel a : json) (r : Z),
    well_formed_release rel = true ->
    select_asset (assets_of rel) = Ok (Some (a, r)) ->
    (exists m, a = JObj m /\ Py.lookup "size" m = None) ->
    exists it,
      feed_item rel = Ok (Some it) /\
      Item.url it = field a "browser_download_url" /\
      Item.length it = str (size_of a) /\
      Item.length it = "0".
Proof.
  intros H rel a r Hwf Hsel [m [-> Hsize]].
  destruct (feed_item_spec rel Hwf)
    as (best & version & date & Hrun & _ & _ & _ & Hitem).
  rewrite Hsel in Hrun. injection Hrun as <-.
  eexists. split; [exact Hitem|].
  repeat split.
  cbn [item_of Item.length]. unfold size_of, Py.get. now rewrite Hsize.
Qed.

Lemma missing_size_gives_zero_length_witness :
  @well_formed_release (Demo.host JNull) Demo.bare_release = true /\
  exists it,
    @feed_item (Demo.host JNull) Demo.bare_release = Ok (Some it) /\
    Item.url it = JStr "https://example.com/App-2.0.pkg" /\
    Item.length it = "0".
Proof.
  split; [reflexivity|].
  destruct (missing_size_gives_zero_length (Demo.host JNull) Demo.bare_release
              (JObj [("name", JStr "App-2.0.PKG");
                     ("browser_download_url", JStr "https://example.com/App-2.0.pkg")])
              2 eq_refl eq_refl)
    as [it [Hrun [Hurl [_ Hlen]]]].
  - eexists. split; reflexivity.
  - exists it. repeat split; assumption.
Defined.

(** A release record with an archive, no tag and no display name stops
    the script: its item carries [None] as title, which [escape] rejects. *)
Lemma untitled_release_stops (H : Host) (repo : string) (rel : json) :
  well_formed_release rel = true ->
  qualifies rel = true ->
  field rel "tag_name" = JNull ->
  Py.truthy (field rel "name") = false ->
  appcast repo (JArr [rel]) = Raise AttributeError.
Proof.
  intros Hwf Hq Htag Hname.
  destruct (feed_item_spec rel Hwf)
    as (best & version & date & _ & Hbest & _ & _ & Hrun).
  destruct (feed_item_qualifies rel Hwf) as [x [Hx Hqx]].
  rewrite Hq in Hqx. rewrite Hx in Hrun. injection Hrun as ->.
  destruct best as [[a r]|]; [|discriminate].
  unfold appcast, build_items. cbn [Py.iterate bind collect]. rewrite Hx.
  cbn [bind]. unfold document. cbn [items_lines]. unfold item_lines at 1.
  cbn [item_of Item.title]. unfold Py.or_. rewrite Hname, Htag. reflexivity.
Qed.

(** C2 at the release [Demo.untitled_release], which has an archive and
    neither [tag_name] nor [name]: the loop appends an item whose version
    is the empty string and whose title is [None], not the empty string;
    writing the title then raises AttributeError, and the run ends with
    that exception, nothing written. *)
Theorem untitled_release_raises :
  forall (H : Host) (repo : string),
    (exists it,
        build_items (JArr [Demo.untitled_release]) = Ok [it] /\
        Item.title it = JNull /\ Item.version it = "") /\
    appcast repo (JArr [Demo.untitled_release]) = Raise AttributeError /\
    final (@main (Demo.host (JArr [Demo.untitled_release]))
                 (Demo.a_world (Some "o/r") (Body "")) Demo.empty_disk) =
      Uncaught AttributeError /\
    disk (@main (Demo.host (JArr [Demo.untitled_release]))
                (Demo.a_world (Some "o/r") (Body "")) Demo.empty_disk) =
      Demo.empty_disk.
Proof.
  intros H repo. split; [|split; [|split]].
  - eexists. repeat split.
  - apply untitled_release_stops; reflexivity.
  - reflexivity.
  - reflexivity.
Qed.

(** ** The start of [main] *)

(** C7, as the specification words it, fails: the request of
    [Demo.a_world] is answered by a connection that the server closes
    without a reply: [urlopen] raises
    [http.client.RemoteDisconnected], which is neither an [HTTPError] nor
    a [URLError].  No handler of [main] catches it: the run ends with the
    exception, which the interpreter reports with status 1, not 3. *)
Lemma fetch_failure_uncaught :
  let H := Demo.host JNull in
  let w := Demo.a_world (Some "o/r") (Raised HTTPException) in
  nonempty (environ w "GITHUB_REPOSITORY") = Some "o/r" /\
  failed (urlopen w (releases_request "o/r" (environ w "GITHUB_TOKEN"))) = true /\
  final (main w Demo.empty_disk) = Uncaught HTTPException /\
  exit_code (final (main w Demo.empty_disk)) = 1 /\
  (final (main w Demo.empty_disk) = SystemExit 3 -> False).
Proof.
  intros H w. repeat split. intros E. discriminate E.
Qed.

(** C7, amended: when the repository is named and the request for its
    releases fails, the disk is as it was, no directory made and no file
    written, and the status of the run is not 0.  When the failure is an
    [HTTPError] or a [URLError], the run ends with exit code 3, having
    sent the one request and printed one line to the standard error.  Any
    other exception of [urlopen] is not caught: the run ends with that
    exception, status 1. *)
Theorem fetch_failure_exits_3 :
  forall (H : Host) (w : world) (fs : FS) (repo : string),
    nonempty (environ w "GITHUB_REPOSITORY") = Some repo ->
    failed (urlopen w (releases_request repo (environ w "GITHUB_TOKEN"))) = true ->
    disk (main w fs) = fs /\
    (forall p, ~ In (Write p) (trace (main w fs)) /\
               ~ In (Makedirs p) (trace (main w fs))) /\
    exit_code (final (main w fs)) <> 0 /\
    (caught (urlopen w (releases_request repo (environ w "GITHUB_TOKEN"))) = true ->
     final (main w fs) = SystemExit 3 /\
     exit_code (final (main w fs)) = 3 /\
     exists line,
       trace (main w fs) =
       [Fetch (releases_request repo (environ w "GITHUB_TOKEN")); Stderr line]) /\
    (forall e,
        urlopen w (releases_request repo (environ w "GITHUB_TOKEN")) = Raised e ->
        final (main w fs) = Uncaught e /\
        exit_code (final (main w fs)) = 1).
Proof.
  intros H w fs repo Hrepo Hfail. unfold main. rewrite Hrepo.
  destruct (urlopen w (releases_request repo (environ w "GITHUB_TOKEN")))
    as [e|e|e|text]; [| | |discriminate].
  - split; [reflexivity|]. split.
    { intros p. cbn [trace In]. split; intros [E|[E|[]]]; discriminate. }
    split; [cbn; discriminate|]. split.
    + intros _. repeat split. eexists. reflexivity.
    + intros e' E. discriminate E.
  - split; [reflexivity|]. split.
    { intros p. cbn [trace In]. split; intros [E|[E|[]]]; discriminate. }
    split; [cbn; discriminate|]. split.
    + intros _. repeat split. eexists. reflexivity.
    + intros e' E. discriminate E.
  - split; [reflexivity|]. split.
    { intros p. cbn [trace In]. split; intros [E|[]]; discriminate. }
    split; [cbn; discriminate|]. split.
    + intros E. discriminate E.
    + intros e' E. injection E as <-. split; reflexivity.
Qed.

Lemma fetch_failure_exits_3_witness :
  let H := Demo.host JNull in
  let w := Demo.a_world (Some "o/r") (HTTPError "HTTP Error 404: Not Found") in
  let w' := Demo.a_world (Some "o/r") (Raised HTTPException) in
  nonempty (environ w "GITHUB_REPOSITORY") = Some "o/r" /\
  failed (urlopen w (releases_request "o/r" (environ w "GITHUB_TOKEN"))) = true /\
  caught (urlopen w (releases_request "o/r" (environ w "GITHUB_TOKEN"))) = true /\
  final (main w Demo.empty_disk) = SystemExit 3 /\
  disk (main w Demo.empty_disk) = Demo.empty_disk /\
  failed (urlopen w' (releases_request "o/r" (environ w' "GITHUB_TOKEN"))) = true /\
  final (main w' Demo.empty_disk) = Uncaught HTTPException /\
  disk (main w' Demo.empty_disk) = Demo.empty_disk.
Proof.
  intros H w w'.
  destruct (fetch_failure_exits_3 H w Demo.empty_disk "o/r" eq_refl eq_refl)
    as (Hdisk & _ & _ & Hcaught & _).
  destruct (fetch_failure_exits_3 H w' Demo.empty_disk "o/r" eq_refl eq_refl)
    as (Hdisk' & _ & _ & _ & Hraised).
  split; [reflexivity|]. split; [reflexivity|]. split; [reflexivity|].
  split; [exact (proj1 (Hcaught eq_refl))|].
  split; [exact Hdisk|].
  split; [reflexivity|].
  split; [exact (proj1 (Hraised HTTPException eq_refl))|].
  exact Hdisk'.
Defined.

(** C8: when GITHUB_REPOSITORY is absent or empty, the run ends with exit
    code 2; all it did was print the complaint, so no request was sent,
    and the disk is as it was. *)
Theorem missing_repository_exits_2 :
  forall (H : Host) (w : world) (fs : FS),
    environ w "GITHUB_REPOSITORY" = None \/
    environ w "GITHUB_REPOSITORY" = Some "" ->
    final (main w fs) = SystemExit 2 /\
    exit_code (final (main w fs)) = 2 /\
    trace (main w fs) = [Stderr "GITHUB_REPOSITORY not set"] /\
    (forall req, ~ In (Fetch req) (trace (main w fs))) /\
    disk (main w fs) = fs.
Proof.
  intros H w fs Hrepo. unfold main.
  assert (Hnone : nonempty (environ w "GITHUB_REPOSITORY") = None)
    by (destruct Hrepo as [-> | ->]; reflexivity).
  rewrite Hnone. repeat split. intros req [E|[]]. discriminate.
Qed.

Lemma missing_repository_exits_2_witness :
  environ (Demo.a_world None (Body "[]")) "GITHUB_REPOSITORY" = None /\
  final (@main (Demo.host Demo.two_releases) (Demo.a_world None (Body "[]"))
               Demo.empty_disk) = SystemExit 2 /\
  disk (@main (Demo.host Demo.two_releases) (Demo.a_world None (Body "[]"))
              Demo.empty_disk) = Demo.empty_disk.
Proof.
  split; [reflexivity|].
  destruct (missing_repository_exits_2 (Demo.host Demo.two_releases)
              (Demo.a_world None (Body "[]")) Demo.empty_disk (or_introl eq_refl))
    as [Hfinal [_ [_ [_ Hdisk]]]].
  split; [exact Hfinal | exact Hdisk].
Defined.

(** ** The exits of [main] *)

Section Exits.

Context `{Host}.

Lemma write_output_final (w : world) (before : list event) (xml : string)
    (fs : FS) (code : Z) :
  final (write_output w before xml fs) <> SystemExit code.
Proof.
  unfold write_output.
  destruct (negb (Path.dirname (output w) =? "")%string &&
            negb (path_exists fs (Path.dirname (output w)))).
  - destruct (makedirs fs (Path.dirname (output w))) as [fs1 [e|]]; [discriminate|].
    destruct (write_text fs1 (output w) xml) as [fs2 [e|]]; discriminate.
  - destruct (write_text fs (output w) xml) as [fs2 [e|]]; discriminate.
Qed.

Lemma requests_app (a b : list event) :
  requests (a ++ b) = (requests a ++ requests b)%list.
Proof. apply flat_map_app. Qed.

Lemma write_output_requests (w : world) (before : list event) (xml : string)
    (fs : FS) :
  requests (trace (write_output w before xml fs)) = requests before.
Proof.
  unfold write_output.
  destruct (negb (Path.dirname (output w) =? "")%string &&
            negb (path_exists fs (Path.dirname (output w)))).
  - destruct (makedirs fs (Path.dirname (output w))) as [fs1 [e|]];
      [cbn [trace]; rewrite requests_app; apply app_nil_r|].
    destruct (write_text fs1 (output w) xml) as [fs2 [e|]];
      cbn [trace]; rewrite requests_app; apply app_nil_r.
  - destruct (write_text fs (output w) xml) as [fs2 [e|]];
      cbn [trace]; rewrite requests_app; apply app_nil_r.
Qed.

(** What a completed [write_output] has done. *)
Lemma write_output_completed (w : world) (before : list event) (xml : string)
    (fs : FS) :
  final (write_output w before xml fs) = Completed ->
  exists fs1 : FS,
    write_text fs1 (output w) xml = (disk (write_output w before xml fs), None) /\
    exists mid,
      trace (write_output w before xml fs) =
      (before ++ mid ++ [Write (output w); Stdout ("Wrote " ++ output w)])%list.
Proof.
  unfold write_output.
  destruct (negb (Path.dirname (output w) =? "")%string &&
            negb (path_exists fs (Path.dirname (output w)))).
  - destruct (makedirs fs (Path.dirname (output w))) as [fs1 [e|]]; [discriminate|].
    destruct (write_text fs1 (output w) xml) as [fs2 [e|]] eqn:Ew; [discriminate|].
    intros _. exists fs1. split; [exact Ew|]. now eexists.
  - destruct (write_text fs (output w) xml) as [fs2 [e|]] eqn:Ew; [discriminate|].
    intros _. exists fs. split; [exact Ew|]. now eexists.
Qed.

(** When [write_output] makes a directory. *)
Lemma write_output_makedirs (w : world) (before : list event) (xml : string)
    (fs : FS) (p : string) :
  In (Makedirs p) (trace (write_output w before xml fs)) ->
  In (Makedirs p) before \/
  (p = Path.dirname (output w) /\ p <> "" /\ path_exists fs p = false).
Proof.
  unfold write_output.
  destruct (Path.dirname (output w) =? "")%string eqn:Edir; cbn [negb andb].
  - destruct (write_text fs (output w) xml) as [fs2 [e|]]; cbn [trace];
      rewrite !in_app_iff; cbn [In]; intuition (try discriminate; auto).
  - apply String.eqb_neq in Edir.
    destruct (path_exists fs (Path.dirname (output w))) eqn:Eex; cbn [negb].
    + destruct (write_text fs (output w) xml) as [fs2 [e|]]; cbn [trace];
        rewrite !in_app_iff; cbn [In]; intuition (try discriminate; auto).
    + assert (Hhere : forall q, Makedirs (Path.dirname (output w)) = Makedirs q ->
                q = Path.dirname (output w) /\ q <> "" /\ path_exists fs q = false)
        by (intros q [= <-]; auto).
      destruct (makedirs fs (Path.dirname (output w))) as [fs1 [e|]].
      * cbn [trace]. rewrite !in_app_iff. cbn [In]. intuition (try discriminate; auto).
      * destruct (write_text fs1 (output w) xml) as [fs2 [e|]]; cbn [trace];
          rewrite !in_app_iff; cbn [In]; intuition (try discriminate; auto).
Qed.

Lemma makedirs_calls_app (a b : list event) :
  makedirs_calls (a ++ b) = (makedirs_calls a ++ makedirs_calls b)%list.
Proof. apply flat_map_app. Qed.

(** The one place where [os.makedirs] is called. *)
Lemma write_output_makedirs_calls (w : world) (before : list event)
    (xml : string) (fs : FS) :
  makedirs_calls (trace (write_output w before xml fs)) =
  (makedirs_calls before ++
   if negb (Path.dirname (output w) =? "")%string &&
      negb (path_exists fs (Path.dirname (output w)))
   then [Path.dirname (output w)] else [])%list.
Proof.
  unfold write_output.
  destruct (negb (Path.dirname (output w) =? "")%string &&
            negb (path_exists fs (Path.dirname (output w)))).
  - destruct (makedirs fs (Path.dirname (output w))) as [fs1 [e|]];
      [cbn [trace]; now rewrite makedirs_calls_app|].
    destruct (write_text fs1 (output w) xml) as [fs2 [e|]];
      cbn [trace]; now rewrite !makedirs_calls_app.
  - destruct (write_text fs (output w) xml) as [fs2 [e|]];
      cbn [trace]; now rewrite !makedirs_calls_app.
Qed.

End Exits.

Lemma head_without_sep (p : string) :
  Path.has_sep p = false -> Path.head p = "".
Proof.
  destruct p as [|c p]; [reflexivity|].
  cbn [Path.has_sep Path.head]. intros [Hc Hp]%orb_false_iff.
  now rewrite Hp, Hc.
Qed.

Lemma dirname_without_sep (p : string) :
  Path.has_sep p = false -> Path.dirname p = "".
Proof.
  intros Hp. unfold Path.dirname. now rewrite (head_without_sep p Hp).
Qed.

(** X1: when the body of the response is not JSON, the run ends with exit
    code 4 after its one request; it prints the parser's complaint and
    leaves the disk as it was. *)
Theorem malformed_json_exits_4 :
  forall (H : Host) (w : world) (fs : FS) (repo text e : string),
    nonempty (environ w "GITHUB_REPOSITORY") = Some repo ->
    urlopen w (releases_request repo (environ w "GITHUB_TOKEN")) = Body text ->
    json_load text = inl e ->
    final (main w fs) = SystemExit 4 /\
    exit_code (final (main w fs)) = 4 /\
    trace (main w fs) =
      [Fetch (releases_request repo (environ w "GITHUB_TOKEN"));
       Stderr ("Failed to parse GitHub API response as JSON: " ++ e)] /\
    disk (main w fs) = fs.
Proof.
  intros H w fs repo text e Hrepo Hbody Hjson.
  unfold main. rewrite Hrepo, Hbody, Hjson. repeat split.
Qed.

Lemma malformed_json_exits_4_witness :
  nonempty (environ (Demo.a_world (Some "o/r") (Body "<html>")) "GITHUB_REPOSITORY")
    = Some "o/r" /\
  final (@main Demo.deaf_host (Demo.a_world (Some "o/r") (Body "<html>"))
               Demo.empty_disk) = SystemExit 4 /\
  disk (@main Demo.deaf_host (Demo.a_world (Some "o/r") (Body "<html>"))
              Demo.empty_disk) = Demo.empty_disk.
Proof.
  split; [reflexivity|].
  destruct (malformed_json_exits_4 Demo.deaf_host
              (Demo.a_world (Some "o/r") (Body "<html>")) Demo.empty_disk
              "o/r" "<html>" "Expecting value: line 1 column 1 (char 0)"
              eq_refl eq_refl eq_refl)
    as [Hfinal [_ [_ Hdisk]]].
  split; [exact Hfinal | exact Hdisk].
Defined.

(** X2: whenever the run ends through [sys.exit], the code is 0, 2, 3
    or 4.  It is 0 exactly when [parse_args] printed the help; it is 2
    exactly when [parse_args] refused the command line or
    GITHUB_REPOSITORY is absent or empty.  In each of these runs nothing
    has touched the disk: no directory made, no file written. *)
Theorem early_exit_leaves_disk :
  forall (H : Host) (args : parsed) (w : world) (fs : FS) (code : Z),
    final (run_main args w fs) = SystemExit code ->
    (code = 0 \/ code = 2 \/ code = 3 \/ code = 4) /\
    (code = 0 <-> exists text, args = Help text) /\
    (code = 2 <->
     (exists text, args = UsageError text) \/
     (exists path, args = Namespace path /\
                   nonempty (environ w "GITHUB_REPOSITORY") = None)) /\
    disk (run_main args w fs) = fs /\
    (forall p, ~ In (Write p) (trace (run_main args w fs)) /\
               ~ In (Makedirs p) (trace (run_main args w fs))).
Proof.
  intros H args w fs code.
  destruct args as [path|text|text]; cbn [run_main].
  - unfold main. cbn [environ urlopen with_output].
    destruct (nonempty (environ w "GITHUB_REPOSITORY")) as [repo|] eqn:Erepo.
    + assert (H0 : forall c : Z, c <> 0 ->
                (c = 0 <-> exists text, Namespace path = Help text))
        by (intros c Hc; split; [intros E; now destruct Hc
                                | intros [t E]; discriminate E]).
      assert (H2 : forall c : Z, c <> 2 ->
                (c = 2 <->
                 (exists text, Namespace path = UsageError text) \/
                 (exists path', Namespace path = Namespace path' /\
                                Some repo = None)))
        by (intros c Hc; split;
            [intros E; now destruct Hc
            | intros [[t E]|[p' [_ E]]]; discriminate E]).
      destruct (urlopen w (releases_request repo (environ w "GITHUB_TOKEN")))
        as [e|e|e|text].
      * intros [= <-]. split; [lia|]. split; [apply H0; lia|].
        split; [apply H2; lia|]. split; [reflexivity|].
        intros p. cbn [trace In]. split; intros [E|[E|[]]]; discriminate.
      * intros [= <-]. split; [lia|]. split; [apply H0; lia|].
        split; [apply H2; lia|]. split; [reflexivity|].
        intros p. cbn [trace In]. split; intros [E|[E|[]]]; discriminate.
      * discriminate.
      * destruct (json_load text) as [e|releases].
        -- intros [= <-]. split; [lia|]. split; [apply H0; lia|].
           split; [apply H2; lia|]. split; [reflexivity|].
           intros p. cbn [trace In]. split; intros [E|[E|[]]]; discriminate.
        -- destruct (appcast repo releases) as [xml|e]; [|discriminate].
           intros Hexit. now apply write_output_final in Hexit.
    + intros [= <-]. split; [lia|]. split.
      { split; [discriminate | intros [t E]; discriminate E]. }
      split.
      { split; [intros _; right; now exists path | reflexivity]. }
      split; [reflexivity|].
      intros p. cbn [trace In]. split; intros [E|[]]; discriminate.
  - intros [= <-]. split; [lia|]. split.
    { split; [intros _; now exists text | reflexivity]. }
    split.
    { split; [discriminate | intros [[t E]|[p' [E _]]]; discriminate E]. }
    split; [reflexivity|].
    intros p. cbn [trace In]. split; intros [E|[]]; discriminate.
  - intros [= <-]. split; [lia|]. split.
    { split; [discriminate | intros [t E]; discriminate E]. }
    split.
    { split; [intros _; left; now exists text | reflexivity]. }
    split; [reflexivity|].
    intros p. cbn [trace In]. split; intros [E|[]]; discriminate.
Qed.

Lemma early_exit_leaves_disk_witness :
  let H := Demo.deaf_host in
  let w := Demo.a_world (Some "o/r") (Body "<html>") in
  let usage := "the following arguments are required: --output" in
  final (run_main (Namespace "docs/appcast.xml") w Demo.empty_disk) = SystemExit 4 /\
  disk (run_main (Namespace "docs/appcast.xml") w Demo.empty_disk) = Demo.empty_disk /\
  final (run_main (UsageError usage) w Demo.empty_disk) = SystemExit 2 /\
  disk (run_main (UsageError usage) w Demo.empty_disk) = Demo.empty_disk.
Proof.
  intros H w usage.
  split; [reflexivity|].
  split; [exact (proj1 (proj2 (proj2 (proj2
    (early_exit_leaves_disk H (Namespace "docs/appcast.xml") w
       Demo.empty_disk 4 eq_refl)))))|].
  split; [reflexivity|].
  exact (proj1 (proj2 (proj2 (proj2
    (early_exit_leaves_disk H (UsageError usage) w Demo.empty_disk 2 eq_refl))))).
Defined.

(** X3: a run sends no request when [parse_args] ends it (the help, or
    a command line it refuses) and when GITHUB_REPOSITORY is absent or
    empty, and otherwise exactly one, whatever happens afterwards: a GET
    of [https://api.github.com/repos/{repo}/releases] with the Accept
    header, and with an Authorization header exactly when GITHUB_TOKEN is
    set and not empty, its value being [token ] followed by the token. *)
Theorem one_request_per_run :
  forall (H : Host) (args : parsed) (w : world) (fs : FS),
    requests (trace (run_main args w fs)) =
      match args with
      | Namespace _ =>
          match nonempty (environ w "GITHUB_REPOSITORY") with
          | None => []
          | Some repo => [releases_request repo (environ w "GITHUB_TOKEN")]
          end
      | Help _ | UsageError _ => []
      end /\
    (forall (repo : string) (token : option string),
        req_url (releases_request repo token) =
          "https://api.github.com/repos/" ++ repo ++ "/releases" /\
        In ("Accept", "application/vnd.github+json")
           (req_headers (releases_request repo token)) /\
        (forall v : string,
            In ("Authorization", v) (req_headers (releases_request repo token)) <->
            exists t, token = Some t /\ t <> "" /\ v = "token " ++ t)).
Proof.
  intros H args w fs. split.
  - destruct args as [path|text|text]; [|reflexivity|reflexivity].
    cbn [run_main]. unfold main. cbn [environ urlopen with_output].
    destruct (nonempty (environ w "GITHUB_REPOSITORY")) as [repo|]; [|reflexivity].
    destruct (urlopen w (releases_request repo (environ w "GITHUB_TOKEN")))
      as [e|e|e|text]; try reflexivity.
    destruct (json_load text) as [e|releases]; [reflexivity|].
    destruct (appcast repo releases) as [xml|e]; [|reflexivity].
    apply write_output_requests.
  - intros repo token. split; [reflexivity|]. split; [now left|].
    intros v. unfold releases_request, nonempty. cbn [req_headers In].
    destruct token as [t|].
    + destruct (String.eqb_spec t "") as [->|Ht]; cbn [In].
      * split; [intros [E|[]]; discriminate | intros [t [[= <-] [Ht _]]]; congruence].
      * split.
        -- intros [E|[[= <-]|[]]]; [discriminate|]. now exists t.
        -- intros [t' [[= <-] [_ ->]]]. right. now left.
    + cbn [In]. split; [intros [E|[]]; discriminate | intros [t [E _]]; discriminate].
Qed.

(** X4: a run that completes (exit code 0) has read the repository name,
    received a body, parsed it and turned it into a feed text; it has
    written that very text to the output path, as its last action before
    reporting it. *)
Theorem completed_run_wrote_feed :
  forall (H : Host) (w : world) (fs : FS),
    final (main w fs) = Completed ->
    exists (repo text xml : string) (releases : json) (fs1 : FS),
      nonempty (environ w "GITHUB_REPOSITORY") = Some repo /\
      urlopen w (releases_request repo (environ w "GITHUB_TOKEN")) = Body text /\
      json_load text = inr releases /\
      appcast repo releases = Ok xml /\
      write_text fs1 (output w) xml = (disk (main w fs), None) /\
      exists mid,
        trace (main w fs) =
        ([Fetch (releases_request repo (environ w "GITHUB_TOKEN"))] ++ mid ++
         [Write (output w); Stdout ("Wrote " ++ output w)])%list.
Proof.
  intros H w fs. unfold main.
  destruct (nonempty (environ w "GITHUB_REPOSITORY")) as [repo|]; [|discriminate].
  destruct (urlopen w (releases_request repo (environ w "GITHUB_TOKEN")))
    as [e|e|e|text] eqn:Eurl; try discriminate.
  destruct (json_load text) as [e|releases] eqn:Ejson; [discriminate|].
  destruct (appcast repo releases) as [xml|e] eqn:Efeed; [|discriminate].
  intros Hdone.
  destruct (write_output_completed w _ xml fs Hdone) as [fs1 [Hw [mid Ht]]].
  exists repo, text, xml, releases, fs1. repeat (split; [reflexivity || assumption|]).
  now exists mid.
Qed.

Lemma completed_run_wrote_feed_witness :
  final (@main (Demo.host Demo.two_releases) (Demo.a_world (Some "o/r") (Body "[]"))
               Demo.empty_disk) = Completed /\
  exists (repo text xml : string) (releases : json) (fs1 : Demo.disk_state),
    @appcast (Demo.host Demo.two_releases) repo releases = Ok xml /\
    @write_text (Demo.host Demo.two_releases) fs1 "docs/appcast.xml" xml =
      (disk (@main (Demo.host Demo.two_releases)
                   (Demo.a_world (Some "o/r") (Body "[]")) Demo.empty_disk), None).
Proof.
  split; [reflexivity|].
  destruct (completed_run_wrote_feed (Demo.host Demo.two_releases)
              (Demo.a_world (Some "o/r") (Body "[]")) Demo.empty_disk eq_refl)
    as (repo & text & xml & releases & fs1 & _ & _ & _ & Hfeed & Hw & _).
  exists repo, text, xml, releases, fs1. split; [exact Hfeed | exact Hw].
Defined.

(** X5: a run calls [os.makedirs] at most once, and then on the
    directory part of the output path, that part being not empty and not
    existing when the run started; an output path with no [/] in it brings
    no call.  A run that gets as far as the feed text makes the call
    exactly when the directory part is not empty and does not exist.
    (Which directories the one call creates, missing ancestors included,
    is the affair of [os.makedirs].) *)
Theorem makedirs_only_for_missing_parent :
  forall (H : Host) (args : parsed) (w : world) (fs : FS),
    (makedirs_calls (trace (run_main args w fs)) = [] \/
     exists path,
       args = Namespace path /\
       makedirs_calls (trace (run_main args w fs)) = [Path.dirname path] /\
       Path.dirname path <> "" /\
       path_exists fs (Path.dirname path) = false /\
       Path.has_sep path = true) /\
    (forall (path repo text xml : string) (releases : json),
        args = Namespace path ->
        nonempty (environ w "GITHUB_REPOSITORY") = Some repo ->
        urlopen w (releases_request repo (environ w "GITHUB_TOKEN")) = Body text ->
        json_load text = inr releases ->
        appcast repo releases = Ok xml ->
        makedirs_calls (trace (run_main args w fs)) =
        if negb (Path.dirname path =? "")%string &&
           negb (path_exists fs (Path.dirname path))
        then [Path.dirname path] else []).
Proof.
  intros H args w fs. split.
  - destruct args as [path|text|text]; [|now left|now left].
    cbn [run_main]. unfold main. cbn [environ urlopen with_output].
    destruct (nonempty (environ w "GITHUB_REPOSITORY")) as [repo|]; [|now left].
    destruct (urlopen w (releases_request repo (environ w "GITHUB_TOKEN")))
      as [e|e|e|text]; try (now left).
    destruct (json_load text) as [e|releases]; [now left|].
    destruct (appcast repo releases) as [xml|e]; [|now left].
    rewrite write_output_makedirs_calls.
    cbn [output with_output makedirs_calls flat_map app].
    destruct (Path.dirname path =? "")%string eqn:Edir; [now left|].
    destruct (path_exists fs (Path.dirname path)) eqn:Eex; [now left|].
    right. exists path. cbn [negb andb].
    apply String.eqb_neq in Edir.
    repeat split; try assumption.
    destruct (Path.has_sep path) eqn:Esep; [reflexivity|].
    now rewrite (dirname_without_sep _ Esep) in Edir.
  - intros path repo text xml releases -> Hrepo Hbody Hjson Hfeed.
    cbn [run_main]. unfold main. cbn [environ urlopen with_output].
    rewrite Hrepo, Hbody, Hjson, Hfeed.
    rewrite write_output_makedirs_calls. reflexivity.
Qed.

Lemma makedirs_only_for_missing_parent_witness :
  let H := Demo.host Demo.two_releases in
  let w := Demo.a_world (Some "o/r") (Body "[]") in
  makedirs_calls (trace (run_main (Namespace "a/b/appcast.xml") w Demo.empty_disk)) =
    ["a/b"] /\
  makedirs_calls (trace (run_main (Namespace "appcast.xml") w Demo.empty_disk)) = [].
Proof.
  intros H w.
  assert (Hfeed : exists xml, appcast "o/r" Demo.two_releases = Ok xml)
    by (eexists; vm_compute; reflexivity).
  destruct Hfeed as [xml Hfeed].
  split; [|reflexivity].
  exact (proj2 (makedirs_only_for_missing_parent H (Namespace "a/b/appcast.xml")
                  w Demo.empty_disk)
           "a/b/appcast.xml" "o/r" "[]" xml Demo.two_releases
           eq_refl eq_refl eq_refl eq_refl Hfeed).
Defined.

(** ** More on the selector *)

Section Extensions.

Lemma length_append (a b : string) :
  String.length (a ++ b) = (String.length a + String.length b)%nat.
Proof. induction a as [|c a IH]; cbn; [reflexivity | now rewrite IH]. Qed.

(** Two suffixes of one text that have the same length are equal. *)
Lemma suffix_unique (p q a b : string) :
  String.length a = String.length b -> p ++ a = q ++ b -> a = b.
Proof.
  revert q. induction p as [|c p IH]; intros q Hlen Heq.
  - cbn in Heq. subst a. rewrite length_append in Hlen.
    destruct q; [reflexivity | cbn in Hlen; lia].
  - destruct q as [|d q].
    + cbn in Heq. subst b. cbn in Hlen. rewrite length_append in Hlen. lia.
    + cbn in Heq. injection Heq as _ Heq. now apply (IH q).
Qed.

Lemma endswith_unique (e1 e2 name : string) :
  String.length e1 = String.length e2 ->
  PyStr.endswith e1 name = true -> PyStr.endswith e2 name = true -> e1 = e2.
Proof.
  intros Hlen [p Hp]%endswith_iff [q Hq]%endswith_iff.
  apply (suffix_unique p q); [exact Hlen | congruence].
Qed.

Lemma endswith_other (e1 e2 name : string) :
  String.length e1 = String.length e2 -> e1 <> e2 ->
  PyStr.endswith e1 name = true -> PyStr.endswith e2 name = false.
Proof.
  intros Hlen Hne H1. destruct (PyStr.endswith e2 name) eqn:H2; [|reflexivity].
  now destruct Hne; apply (endswith_unique e1 e2 name).
Qed.

End Extensions.

(** X6: a name ends with at most one extension of the table, so stopping
    at the first match loses nothing: the priority found for a name is [r]
    exactly when the name ends with the extension the table gives rank [r]. *)
Theorem first_match_is_only_match :
  forall (name ext : string) (r : Z),
    In (ext, r) ext_priority ->
    (first_match name ext_priority = Some r <-> PyStr.endswith ext name = true).
Proof.
  intros name ext r Hin. cbn [ext_priority In] in Hin. cbn [first_match ext_priority].
  destruct Hin as [[= <- <-]|[[= <- <-]|[[= <- <-]|[]]]].
  - destruct (PyStr.endswith ".zip" name), (PyStr.endswith ".dmg" name),
      (PyStr.endswith ".pkg" name); split; congruence.
  - destruct (PyStr.endswith ".zip" name) eqn:Ez.
    + rewrite (endswith_other ".zip" ".dmg" name eq_refl ltac:(discriminate) Ez).
      split; discriminate.
    + destruct (PyStr.endswith ".dmg" name), (PyStr.endswith ".pkg" name);
        split; congruence.
  - destruct (PyStr.endswith ".zip" name) eqn:Ez.
    + rewrite (endswith_other ".zip" ".pkg" name eq_refl ltac:(discriminate) Ez).
      split; discriminate.
    + destruct (PyStr.endswith ".dmg" name) eqn:Ed.
      * rewrite (endswith_other ".dmg" ".pkg" name eq_refl ltac:(discriminate) Ed).
        split; discriminate.
      * destruct (PyStr.endswith ".pkg" name); split; congruence.
Qed.

Lemma first_match_is_only_match_witness :
  In (".dmg", 1) ext_priority /\
  (first_match "app-1.0.dmg" ext_priority = Some 1 <->
   PyStr.endswith ".dmg" "app-1.0.dmg" = true).
Proof.
  split; [right; left; reflexivity|].
  apply (first_match_is_only_match "app-1.0.dmg" ".dmg" 1).
  right. left. reflexivity.
Defined.

Section Unrecognised.

Context `{Host}.

Lemma consider_unrecognised (best : choice) (a : json) :
  readable_asset a = true -> archive_name a = false -> consider best a = Ok best.
Proof.
  intros Ha Hn. rewrite (archive_name_rank a Ha) in Hn.
  unfold rank in Hn. unfold consider.
  rewrite (asset_name_readable a Ha) in *. cbn [bind].
  now destruct (first_match (PyStr.lower (name_text a)) ext_priority).
Qed.

Lemma select_from_filter (assets : list json) (best : choice) :
  forallb readable_asset assets = true ->
  select_from best (filter archive_name assets) = select_from best assets.
Proof.
  revert best. induction assets as [|a assets IH]; intros best Hall; [reflexivity|].
  cbn [forallb] in Hall. apply andb_true_iff in Hall as [Ha Hall].
  cbn [filter select_from]. destruct (archive_name a) eqn:Hn.
  - cbn [select_from]. destruct (consider best a) as [best'|e]; cbn [bind];
      [now apply IH | reflexivity].
  - rewrite (consider_unrecognised best a Ha Hn). cbn [bind]. now apply IH.
Qed.

End Unrecognised.

(** X7: assets whose name has no recognised extension play no part in the
    choice: on a list of asset records, the selector returns the same
    asset, with the same rank, as on the list with those assets removed. *)
Theorem select_asset_ignores_unrecognised :
  forall (H : Host) (assets : list json),
    forallb readable_asset assets = true ->
    select_asset (JArr (filter archive_name assets)) = select_asset (JArr assets).
Proof.
  intros H assets Hall. unfold select_asset. cbn [Py.iterate bind].
  now apply select_from_filter.
Qed.

Lemma select_asset_ignores_unrecognised_witness :
  let H := Demo.host JNull in
  forallb readable_asset
    [Demo.asset "notes.txt" "https://example.com/notes.txt" 12; Demo.dmg;
     Demo.asset "" "" 0; Demo.zip] = true /\
  select_asset (JArr [Demo.dmg; Demo.zip]) =
  select_asset
    (JArr [Demo.asset "notes.txt" "https://example.com/notes.txt" 12; Demo.dmg;
           Demo.asset "" "" 0; Demo.zip]).
Proof.
  split; [reflexivity|].
  apply (select_asset_ignores_unrecognised (Demo.host JNull)
           [Demo.asset "notes.txt" "https://example.com/notes.txt" 12; Demo.dmg;
            Demo.asset "" "" 0; Demo.zip]).
  reflexivity.
Defined.

(** ** More on the loop over the releases *)

Section LoopBody.

Context `{Host}.

Create Rewrite HintDb reads.
#[local] Hint Rewrite get_field get_assets get_size published_timestamp : reads.

Ltac run_reads := repeat (progress (autorewrite with reads; cbn [bind])).

Lemma feed_item_no_archive (m : list (string * json)) (l : list json) :
  assets_of (JObj m) = JArr l ->
  forallb readable_asset l = true ->
  existsb archive_name l = false ->
  feed_item (JObj m) = Ok None.
Proof.
  intros Hassets Hall Hnone.
  destruct (select_asset_best l Hall) as [best [Hrun Hbest]].
  rewrite (best_of_qualifies l best Hall Hbest) in Hnone.
  destruct best as [[a r]|]; [discriminate|].
  unfold feed_item. run_reads. rewrite Hassets, Hrun. reflexivity.
Qed.

Lemma feed_item_not_iterable (m : list (string * json)) (v : json) :
  Py.lookup "assets" m = Some v ->
  not_iterable v = true ->
  feed_item (JObj m) = Raise TypeError.
Proof.
  intros Hm Hv.
  assert (Hassets : assets_of (JObj m) = v)
    by (unfold assets_of, Py.get; now rewrite Hm).
  unfold feed_item. run_reads. rewrite Hassets.
  unfold select_asset. now destruct v.
Qed.

Lemma collect_none (rels : list json) :
  forallb well_formed_release rels = true ->
  filter qualifies rels = [] ->
  collect rels = Ok [].
Proof.
  intros Hall Hnone.
  destruct (collect_qualifying rels Hall) as [items [Hrun Hitems]].
  rewrite Hnone in Hitems. inversion Hitems. now subst.
Qed.

End LoopBody.

(** X8: a release none of whose asset records has a recognised name is
    skipped before its tag and its timestamps are looked at: whatever
    they are, even values that would stop the run on a release with an
    archive, the body of the loop appends nothing and raises nothing. *)
Theorem release_without_archive_skipped :
  forall (H : Host) (m : list (string * json)) (l : list json),
    assets_of (JObj m) = JArr l ->
    forallb readable_asset l = true ->
    existsb archive_name l = false ->
    feed_item (JObj m) = Ok None.
Proof. intros H m l. apply feed_item_no_archive. Qed.

Lemma release_without_archive_skipped_witness :
  text_or_falsy (field (JObj Demo.unkempt) "tag_name") = false /\
  @readable_date (Demo.host JNull) (timestamp_of (JObj Demo.unkempt)) = false /\
  @feed_item (Demo.host JNull) (JObj Demo.unkempt) = Ok None.
Proof.
  split; [reflexivity|]. split; [reflexivity|].
  apply (release_without_archive_skipped (Demo.host JNull) Demo.unkempt
           [Demo.asset "notes.txt" "https://example.com/notes.txt" 12]);
    reflexivity.
Defined.

(** X9: the default [[]] for the assets serves a missing key only.  When
    the key is there with [null], a boolean or a number, the loop over the
    assets raises TypeError, before anything else of the release is
    examined. *)
Theorem assets_not_iterable_raises :
  forall (H : Host) (m : list (string * json)) (v : json),
    Py.lookup "assets" m = Some v ->
    not_iterable v = true ->
    feed_item (JObj m) = Raise TypeError.
Proof. intros H m v. apply feed_item_not_iterable. Qed.

Lemma assets_not_iterable_raises_witness :
  Py.lookup "assets" Demo.null_assets = Some JNull /\
  @feed_item (Demo.host JNull) (JObj Demo.null_assets) = Raise TypeError.
Proof.
  split; [reflexivity|].
  apply (assets_not_iterable_raises (Demo.host JNull) Demo.null_assets JNull);
    reflexivity.
Defined.

(** X10: the item of a release record with an archive.  Its title is the
    display name, or the tag when the name is missing or empty; its notes
    link is [html_url]; its date is read from [published_at], and from
    [created_at] only when [published_at] is missing or empty; its version
    comes from the tag; and its download link and its length are both
    those of the one asset the selector chose. *)
Theorem item_fields :
  forall (H : Host) (rel : json),
    well_formed_release rel = true ->
    qualifies rel = true ->
    exists (it : Item.t) (a : json) (r : Z),
      feed_item rel = Ok (Some it) /\
      select_asset (assets_of rel) = Ok (Some (a, r)) /\
      Item.title it =
        (if Py.truthy (field rel "name") then field rel "name"
         else field rel "tag_name") /\
      Item.notes it = field rel "html_url" /\
      pub_date (if Py.truthy (field rel "published_at")
                then field rel "published_at"
                else field rel "created_at") = Ok (Item.pubDate it) /\
      version_of (field rel "tag_name") = Ok (Item.version it) /\
      Item.url it = field a "browser_download_url" /\
      Item.length it = str (size_of a).
Proof.
  intros H rel Hwf Hq.
  destruct (feed_item_spec rel Hwf)
    as (best & version & date & Hsel & Hbest & Hversion & Hdate & Hrun).
  destruct (feed_item_qualifies rel Hwf) as [x [Hx Hqx]].
  rewrite Hq in Hqx. rewrite Hx in Hrun. injection Hrun as ->.
  destruct best as [[a r]|]; [|discriminate].
  exists (item_of rel a date version), a, r.
  repeat split; assumption.
Qed.

Lemma item_fields_witness :
  @well_formed_release (Demo.host JNull) Demo.draft = true /\
  @qualifies (Demo.host JNull) Demo.draft = true /\
  exists it : Item.t,
    @feed_item (Demo.host JNull) Demo.draft = Ok (Some it) /\
    Item.title it = JStr "v3.0" /\
    @pub_date (Demo.host JNull) (JStr "2024-03-01T08:00:00Z") = Ok (Item.pubDate it) /\
    Item.url it = JStr "https://example.com/App-1.0.zip".
Proof.
  split; [reflexivity|]. split; [reflexivity|].
  destruct (item_fields (Demo.host JNull) Demo.draft eq_refl eq_refl)
    as (it & a & r & Hrun & Hsel & Htitle & _ & Hdate & _ & Hurl & _).
  exists it. split; [exact Hrun|]. split; [exact Htitle|]. split; [exact Hdate|].
  rewrite Hurl. injection Hsel as <- _. reflexivity.
Defined.

(** X11: when no release of a well-formed array has an archive, and in
    particular when the array is empty, the feed is still produced: the
    seven opening lines and the two closing lines, with no item. *)
Theorem feed_without_items :
  forall (H : Host) (repo : string) (rels : list json),
    forallb well_formed_release rels = true ->
    filter qualifies rels = [] ->
    appcast repo (JArr rels) =
    Ok (PyStr.join PyStr.newline (preamble repo ++ closing)%list) /\
    List.length (preamble repo) = 7%nat.
Proof.
  intros H repo rels Hall Hnone. split; [|reflexivity].
  unfold appcast, build_items. cbn [Py.iterate bind].
  now rewrite (collect_none rels Hall Hnone).
Qed.

Lemma feed_without_items_witness :
  forallb (@well_formed_release (Demo.host JNull)) Demo.notes_only = true /\
  filter (@qualifies (Demo.host JNull)) Demo.notes_only = [] /\
  @appcast (Demo.host JNull) "o/r" (JArr Demo.notes_only) =
  Ok (PyStr.join PyStr.newline (preamble "o/r" ++ closing)%list).
Proof.
  split; [reflexivity|]. split; [reflexivity|].
  apply (feed_without_items (Demo.host JNull) "o/r" Demo.notes_only); reflexivity.
Defined.

(** ** More on the writing of the feed *)

Section Writing.

Lemma escape_raises (v : json) :
  is_text v = false -> Sax.escape v = Raise AttributeError.
Proof. now destruct v. Qed.

Lemma escape_text_ok (v : json) :
  is_text v = true -> exists s, Sax.escape v = Ok s.
Proof. destruct v; try discriminate. intros _. now eexists. Qed.

Lemma item_lines_raises (it : Item.t) :
  text_item it = false -> item_lines it = Raise AttributeError.
Proof.
  unfold text_item, item_lines. destruct it as [t n d u l v]. cbn [Item.title Item.notes Item.url].
  destruct t; try reflexivity. destruct n; try reflexivity.
  destruct u; try reflexivity. discriminate.
Qed.

Lemma six_lines (it : Item.t) :
  text_item it = true ->
  exists l2 l3 l4 l5,
    item_lines it = Ok ["<item>"; l2; l3; l4; l5; "</item>"] /\
    Forall (fun l => l <> "<item>" /\ l <> "</item>") [l2; l3; l4; l5].
Proof.
  unfold text_item, item_lines, enclosure, attr.
  destruct it as [t n d u l v]. cbn [Item.title Item.notes Item.url].
  destruct t; try discriminate. destruct n; try discriminate.
  destruct u; try discriminate. intros _. cbn [Sax.escape Py.as_str bind].
  do 4 eexists. split; [reflexivity|].
  repeat constructor; cbn [String.append]; discriminate.
Qed.

Lemma items_lines_raises (items : list Item.t) :
  forallb text_item items = false -> items_lines items = Raise AttributeError.
Proof.
  induction items as [|it items IH]; [discriminate|].
  cbn [forallb items_lines]. destruct (text_item it) eqn:Hit.
  - destruct (six_lines it Hit) as (l2 & l3 & l4 & l5 & -> & _).
    cbn [andb bind]. intros Hrest. now rewrite (IH Hrest).
  - intros _. now rewrite (item_lines_raises it Hit).
Qed.

Lemma items_lines_counts (items : list Item.t) :
  forallb text_item items = true ->
  exists body,
    items_lines items = Ok body /\
    List.length body = (6 * List.length items)%nat /\
    count_occ string_dec body "<item>" = List.length items /\
    count_occ string_dec body "</item>" = List.length items.
Proof.
  induction items as [|it items IH]; intros Hall.
  - exists []. repeat split.
  - cbn [forallb] in Hall. apply andb_true_iff in Hall as [Hit Hall].
    destruct (IH Hall) as (body & Hbody & Hlen & Hopen & Hclose).
    destruct (six_lines it Hit) as (l2 & l3 & l4 & l5 & Hlines & Hother).
    exists (["<item>"; l2; l3; l4; l5; "</item>"] ++ body)%list.
    cbn [items_lines]. rewrite Hlines, Hbody. cbn [bind].
    split; [reflexivity|].
    inversion Hother as [|? ? [H2o H2c] Hother3]; subst.
    inversion Hother3 as [|? ? [H3o H3c] Hother4]; subst.
    inversion Hother4 as [|? ? [H4o H4c] Hother5]; subst.
    inversion Hother5 as [|? ? [H5o H5c] _]; subst.
    split; [cbn [List.length app]; lia|].
    split.
    + cbn [app]. rewrite count_occ_cons_eq by reflexivity.
      rewrite !count_occ_cons_neq by (assumption || discriminate).
      cbn [List.length]. now rewrite Hopen.
    + cbn [app]. rewrite count_occ_cons_neq by discriminate.
      rewrite !count_occ_cons_neq by assumption.
      rewrite count_occ_cons_eq by reflexivity.
      cbn [List.length]. now rewrite Hclose.
Qed.

End Writing.

(** X12: writing the feed fails exactly when some item has a title, a
    notes link or a download link that is not a text ([None] included),
    and the failure is always AttributeError; when all three are texts in
    every item, the feed text is produced. *)
Theorem document_fails_on_non_text :
  forall (repo : string) (items : list Item.t),
    (document repo items = Raise AttributeError <->
     forallb text_item items = false) /\
    ((exists xml, document repo items = Ok xml) <->
     forallb text_item items = true).
Proof.
  intros repo items. unfold document.
  destruct (forallb text_item items) eqn:Hall.
  - destruct (items_lines_counts items Hall) as (body & -> & _). cbn [bind].
    split; split; try discriminate; try reflexivity. intros _. now eexists.
  - rewrite (items_lines_raises items Hall). cbn [bind].
    split; split; try reflexivity; try discriminate. intros [xml E]. discriminate.
Qed.

(** X13: when every item has texts as title and links, the feed is the
    seven opening lines, six lines per item, and the two closing lines,
    joined by newlines; among the lines of the items there are exactly as
    many [<item>] and as many [</item>] as there are items. *)
Theorem document_shape :
  forall (repo : string) (items : list Item.t),
    forallb text_item items = true ->
    exists body : list string,
      items_lines items = Ok body /\
      document repo items =
        Ok (PyStr.join PyStr.newline (preamble repo ++ body ++ closing)%list) /\
      List.length body = (6 * List.length items)%nat /\
      count_occ string_dec body "<item>" = List.length items /\
      count_occ string_dec body "</item>" = List.length items.
Proof.
  intros repo items Hall.
  destruct (items_lines_counts items Hall) as (body & Hbody & Hlen & Hopen & Hclose).
  exists body. unfold document. rewrite Hbody. cbn [bind]. repeat split; assumption.
Qed.

Lemma document_shape_witness :
  forallb text_item
    [text_fields "A" "n1" "" "u1" "1" "1.0"; text_fields "B" "n2" "" "u2" "2" "2.0"] = true /\
  exists body : list string,
    items_lines
      [text_fields "A" "n1" "" "u1" "1" "1.0"; text_fields "B" "n2" "" "u2" "2" "2.0"]
      = Ok body /\
    List.length body = 12%nat /\
    count_occ string_dec body "<item>" = 2%nat.
Proof.
  split; [reflexivity|].
  destruct (document_shape "o/r"
              [text_fields "A" "n1" "" "u1" "1" "1.0";
               text_fields "B" "n2" "" "u2" "2" "2.0"] eq_refl)
    as (body & Hbody & _ & Hlen & Hopen & _).
  exists body. repeat split; assumption.
Defined.

Section Values.

Lemma mem_cons (c d : ascii) (s : string) :
  PyStr.mem c (String d s) = Ascii.eqb c d || PyStr.mem c s.
Proof. reflexivity. Qed.

Lemma no_quote_nor_markup_char (c : ascii) (rest : string) :
  Xml.no_quote_nor_markup (Xml.escape_char c ++ rest) =
  negb (Ascii.eqb "034" c) && Xml.no_quote_nor_markup rest.
Proof.
  unfold Xml.escape_char.
  destruct (Ascii.eqb_spec c "&") as [->|Hamp];
    [cbn [String.append Xml.no_quote_nor_markup];
     rewrite ?prefix_cons, ?prefix_empty; reflexivity|].
  destruct (Ascii.eqb_spec c ">") as [->|Hgt];
    [cbn [String.append Xml.no_quote_nor_markup];
     rewrite ?prefix_cons, ?prefix_empty; reflexivity|].
  destruct (Ascii.eqb_spec c "<") as [->|Hlt];
    [cbn [String.append Xml.no_quote_nor_markup];
     rewrite ?prefix_cons, ?prefix_empty; reflexivity|].
  cbn [String.append Xml.no_quote_nor_markup].
  apply Ascii.eqb_neq in Hamp, Hlt. rewrite Hamp, Hlt, (Ascii.eqb_sym c "034").
  cbn [negb orb]. now rewrite !andb_true_r.
Qed.

Lemma plain_cons (c : ascii) (s : string) :
  plain (String c s) =
  negb (Ascii.eqb "&" c) && negb (Ascii.eqb "<" c) && negb (Ascii.eqb ">" c) &&
  plain s.
Proof.
  unfold plain. rewrite !mem_cons, !negb_orb.
  destruct (negb (Ascii.eqb "&" c)), (negb (Ascii.eqb "<" c)),
    (negb (Ascii.eqb ">" c)), (negb (PyStr.mem "&" s)),
    (negb (PyStr.mem "<" s)), (negb (PyStr.mem ">" s)); reflexivity.
Qed.

Lemma escape_plain (s : string) : plain s = true -> Sax.escape_text s = s.
Proof.
  rewrite escape_text_expand.
  induction s as [|c s IH]; [reflexivity|].
  rewrite plain_cons.
  intros [[[Hamp Hlt]%andb_true_iff Hgt]%andb_true_iff Hs]%andb_true_iff.
  cbn [Xml.expand]. rewrite (IH Hs). unfold Xml.escape_char.
  apply negb_true_iff in Hamp, Hlt, Hgt.
  rewrite Ascii.eqb_sym in Hamp, Hlt, Hgt. now rewrite Hamp, Hlt, Hgt.
Qed.

Lemma decimal_char (c : ascii) :
  PyStr.mem c "-0123456789" = true ->
  Ascii.eqb "&" c = false /\ Ascii.eqb "<" c = false /\
  Ascii.eqb ">" c = false /\ Ascii.eqb "034" c = false.
Proof.
  cbn [PyStr.mem]. rewrite !orb_true_iff.
  intros Hc. repeat destruct Hc as [Hc|Hc]; try discriminate;
    apply Ascii.eqb_eq in Hc; subst c; repeat split.
Qed.

Lemma decimal_plain (s : string) :
  decimal_text s = true -> plain s = true /\ PyStr.mem "034" s = false.
Proof.
  induction s as [|c s IH]; [now split|].
  cbn [decimal_text]. intros [Hc Hs]%andb_true_iff.
  destruct (IH Hs) as [Hp Hq]. destruct (decimal_char c Hc) as (Ha & Hl & Hg & Hd).
  rewrite plain_cons, mem_cons, Ha, Hl, Hg, Hd, Hp, Hq. now split.
Qed.

Lemma no_quote_nor_markup_escape (s : string) :
  Xml.no_quote_nor_markup (Sax.escape_text s) = negb (PyStr.mem "034" s).
Proof.
  rewrite escape_text_expand.
  induction s as [|c s IH]; [reflexivity|].
  cbn [Xml.expand]. rewrite no_quote_nor_markup_char, IH, mem_cons.
  now rewrite negb_orb.
Qed.

Lemma attribute_value_escape (s : string) :
  Xml.attribute_value (Sax.escape_text s) =
  negb (PyStr.mem "034" s) && Xml.legal s.
Proof.
  unfold Xml.attribute_value.
  now rewrite no_quote_nor_markup_escape, legal_escape.
Qed.

(** A printable ASCII character at the head of a text. *)
Lemma legal_cons_printable (c : ascii) (s : string) :
  ((32 <=? N_of_ascii c) && (N_of_ascii c <? 128))%N = true ->
  Xml.legal (String c s) = Xml.legal s.
Proof.
  intros [Hlo Hhi]%andb_true_iff. unfold Xml.legal. cbn [Xml.code_points].
  rewrite Hhi. destruct (Xml.code_points s) as [l|]; [|reflexivity].
  cbn [option_map forallb]. unfold Xml.xml_char at 1. rewrite Hlo.
  apply N.ltb_lt in Hhi.
  assert (Hle : (N_of_ascii c <=? 55295)%N = true) by (apply N.leb_le; lia).
  rewrite Hle. cbn [andb]. now rewrite orb_true_r.
Qed.

Lemma decimal_legal (s : string) : decimal_text s = true -> Xml.legal s = true.
Proof.
  induction s as [|c s IH]; [reflexivity|].
  cbn [decimal_text]. intros [Hc Hs]%andb_true_iff.
  rewrite legal_cons_printable; [now apply IH|].
  cbn [PyStr.mem] in Hc. rewrite !orb_true_iff in Hc.
  repeat destruct Hc as [Hc|Hc]; try discriminate;
    apply Ascii.eqb_eq in Hc; subst c; reflexivity.
Qed.

Lemma decimal_uint (d : Decimal.uint) :
  decimal_text (NilEmpty.string_of_uint d) = true.
Proof. induction d; cbn; assumption || reflexivity. Qed.

Lemma decimal_of_int (n : Z) : decimal_text (PyStr.of_int n) = true.
Proof.
  unfold PyStr.of_int, NilZero.string_of_int, NilZero.string_of_uint.
  destruct (Z.to_int n) as [d|d]; destruct d;
    try reflexivity; cbn [decimal_text PyStr.mem];
    try (apply (decimal_uint (Decimal.D0 d)) || apply (decimal_uint (Decimal.D1 d)) ||
         apply (decimal_uint (Decimal.D2 d)) || apply (decimal_uint (Decimal.D3 d)) ||
         apply (decimal_uint (Decimal.D4 d)) || apply (decimal_uint (Decimal.D5 d)) ||
         apply (decimal_uint (Decimal.D6 d)) || apply (decimal_uint (Decimal.D7 d)) ||
         apply (decimal_uint (Decimal.D8 d)) || apply (decimal_uint (Decimal.D9 d))).
Qed.

End Values.

(** X14: what [escape] makes of a text is a well-formed double-quoted
    attribute value exactly when the text holds no double quote and is
    made of characters an XML document may hold: the ampersands and angle
    brackets are taken care of; the double quote is not, and neither are
    the control characters and the other code points XML has no place
    for. *)
Theorem attribute_well_formed_iff_no_quote :
  forall s : string,
    Xml.attribute_value (Sax.escape_text s) =
    negb (PyStr.mem "034" s) && Xml.legal s.
Proof. exact attribute_value_escape. Qed.

(** X15: [escape] returns unchanged every text that holds none of [&],
    [<] and [>]. *)
Theorem plain_text_unchanged :
  forall s : string, plain s = true -> Sax.escape_text s = s.
Proof. exact escape_plain. Qed.

Lemma plain_text_unchanged_witness :
  plain "https://example.com/App-1.0.0.zip?a=1" = true /\
  Sax.escape_text "https://example.com/App-1.0.0.zip?a=1" =
  "https://example.com/App-1.0.0.zip?a=1".
Proof.
  split; [reflexivity|].
  apply (plain_text_unchanged "https://example.com/App-1.0.0.zip?a=1").
  reflexivity.
Defined.

(** X16: for every integer size, negative ones included, the length of
    the item is a text of digits and minus signs, [escape] writes it
    unchanged, and it is a well-formed attribute value. *)
Theorem integer_length_written_as_is :
  forall (H : Host) (n : Z),
    decimal_text (str (JInt n)) = true /\
    Sax.escape (JStr (str (JInt n))) = Ok (str (JInt n)) /\
    Xml.attribute_value (Sax.escape_text (str (JInt n))) = true.
Proof.
  intros H n. cbn [str].
  destruct (decimal_plain _ (decimal_of_int n)) as [Hp Hq].
  split; [apply decimal_of_int|]. split.
  - cbn [Sax.escape Py.as_str bind]. now rewrite (escape_plain _ Hp).
  - now rewrite attribute_value_escape, Hq, (decimal_legal _ (decimal_of_int n)).
Qed.

Section Dates.

Context `{Host}.

Lemma strftime_not_empty (dt : Datetime.datetime) : Datetime.strftime dt <> "".
Proof.
  unfold Datetime.strftime.
  destruct (nth (Z.to_nat (Datetime.weekday dt)) Datetime.day_names "");
    cbn [String.append]; discriminate.
Qed.

Lemma iso_to_rfc2822_not_empty (pub : json) (d : string) :
  iso_to_rfc2822 pub = Ok d -> d <> "".
Proof.
  unfold iso_to_rfc2822.
  destruct (Py.replace pub "Z" "+00:00") as [text|e]; [|discriminate].
  cbn [bind]. destruct (Datetime.fromisoformat text) as [dt|e]; [|discriminate].
  cbn [bind]. intros [= <-]. apply strftime_not_empty.
Qed.

Lemma pub_date_empty (pub : json) (d : string) :
  pub_date pub = Ok d -> (d = "" <-> Py.truthy pub = false).
Proof.
  unfold pub_date. destruct (Py.truthy pub).
  - intros Hd%iso_to_rfc2822_not_empty. split; [contradiction | discriminate].
  - intros [= <-]. now split.
Qed.

Lemma collect_not_dict (rel : json) (rest : list json) :
  match rel with JObj _ => False | _ => True end ->
  collect (rel :: rest) = Raise AttributeError.
Proof. destruct rel; intros []; reflexivity. Qed.

End Dates.

(** X17: the date of an item is the empty string exactly when the release
    has no timestamp ([published_at] and [created_at] both missing or
    empty): the normalizer never returns an empty text. *)
Theorem empty_date_iff_no_timestamp :
  forall (H : Host) (rel : json),
    well_formed_release rel = true ->
    qualifies rel = true ->
    exists it : Item.t,
      feed_item rel = Ok (Some it) /\
      (Item.pubDate it = "" <->
       Py.truthy (field rel "published_at") = false /\
       Py.truthy (field rel "created_at") = false).
Proof.
  intros H rel Hwf Hq.
  destruct (feed_item_spec rel Hwf)
    as (best & version & date & _ & _ & _ & Hdate & Hrun).
  destruct (feed_item_qualifies rel Hwf) as [x [Hx Hqx]].
  rewrite Hq in Hqx. rewrite Hx in Hrun. injection Hrun as ->.
  destruct best as [[a r]|]; [|discriminate].
  eexists. split; [exact Hx|]. cbn [item_of Item.pubDate].
  rewrite (pub_date_empty _ _ Hdate). unfold timestamp_of, Py.or_.
  destruct (Py.truthy (field rel "published_at")) eqn:Hp.
  - rewrite Hp. split; [discriminate | intros [E _]; discriminate].
  - split; [now split | now intros [_ E]].
Qed.

Lemma empty_date_iff_no_timestamp_witness :
  @well_formed_release (Demo.host JNull) Demo.draft = true /\
  @qualifies (Demo.host JNull) Demo.draft = true /\
  exists it : Item.t,
    @feed_item (Demo.host JNull) Demo.draft = Ok (Some it) /\
    (Item.pubDate it = "" <->
     Py.truthy (field Demo.draft "published_at") = false /\
     Py.truthy (field Demo.draft "created_at") = false).
Proof.
  split; [reflexivity|]. split; [reflexivity|].
  apply (empty_date_iff_no_timestamp (Demo.host JNull) Demo.draft); reflexivity.
Defined.

(** X18: when the conversion of the parsed response raises an exception,
    the run ends with that exception uncaught, having done nothing but its
    request: the output file is not opened and the disk is as it was. *)
Theorem conversion_error_leaves_disk :
  forall (H : Host) (w : world) (fs : FS) (repo text : string)
         (releases : json) (e : exn),
    nonempty (environ w "GITHUB_REPOSITORY") = Some repo ->
    urlopen w (releases_request repo (environ w "GITHUB_TOKEN")) = Body text ->
    json_load text = inr releases ->
    appcast repo releases = Raise e ->
    final (main w fs) = Uncaught e /\
    exit_code (final (main w fs)) = 1 /\
    trace (main w fs) = [Fetch (releases_request repo (environ w "GITHUB_TOKEN"))] /\
    disk (main w fs) = fs.
Proof.
  intros H w fs repo text releases e Hrepo Hbody Hjson Hfeed.
  unfold main. rewrite Hrepo, Hbody, Hjson, Hfeed. repeat split.
Qed.

Lemma conversion_error_leaves_disk_witness :
  @appcast (Demo.host (JObj Demo.null_assets)) "o/r" (JArr [JObj Demo.null_assets])
    = Raise TypeError /\
  final (@main (Demo.host (JArr [JObj Demo.null_assets]))
               (Demo.a_world (Some "o/r") (Body "[]")) Demo.empty_disk)
    = Uncaught TypeError /\
  disk (@main (Demo.host (JArr [JObj Demo.null_assets]))
              (Demo.a_world (Some "o/r") (Body "[]")) Demo.empty_disk)
    = Demo.empty_disk.
Proof.
  split; [reflexivity|].
  destruct (conversion_error_leaves_disk (Demo.host (JArr [JObj Demo.null_assets]))
              (Demo.a_world (Some "o/r") (Body "[]")) Demo.empty_disk
              "o/r" "[]" (JArr [JObj Demo.null_assets]) TypeError
              eq_refl eq_refl eq_refl eq_refl)
    as [Hfinal [_ [_ Hdisk]]].
  split; [exact Hfinal | exact Hdisk].
Defined.

(** X19: a response that is not an array of objects.  [null], a boolean
    or a number cannot be looped over: TypeError.  An array whose first
    element is not an object, a non-empty object (the loop runs over its
    keys) and a non-empty text (over its characters) raise AttributeError
    at the first [rel.get].  An empty array, object or text gives no
    item. *)
Theorem response_not_array_of_objects :
  forall (H : Host),
    (forall v, not_iterable v = true -> build_items v = Raise TypeError) /\
    (forall rel rest,
        match rel with JObj _ => False | _ => True end ->
        build_items (JArr (rel :: rest)) = Raise AttributeError) /\
    (forall k v m, build_items (JObj ((k, v) :: m)) = Raise AttributeError) /\
    (forall c s, build_items (JStr (String c s)) = Raise AttributeError) /\
    build_items (JArr []) = Ok [] /\
    build_items (JObj []) = Ok [] /\
    build_items (JStr "") = Ok [].
Proof.
  intros H. repeat split.
  - intros v Hv. now destruct v.
  - intros rel rest Hrel. unfold build_items. cbn [Py.iterate bind].
    now apply collect_not_dict.
Qed.

Lemma response_not_array_of_objects_witness :
  not_iterable JNull = true /\
  @build_items (Demo.host JNull) JNull = Raise TypeError /\
  @build_items (Demo.host JNull) (JArr [JStr "Not Found"]) = Raise AttributeError.
Proof.
  split; [reflexivity|].
  destruct (response_not_array_of_objects (Demo.host JNull))
    as [Hscalar [Harray _]].
  split; [apply Hscalar; reflexivity | apply Harray; exact I].
Defined.
